(** * Simineq Markdown Editor: a shallow embedding of [src/main.py]

    The editor is one Tk window with a text widget, an HTML preview, a
    status bar and four file commands.  The handlers of [MarkdownEditor]
    are embedded as functions on an explicit world: the fields of the
    instance, the disk, and the message boxes shown so far.  What the
    handlers call in Tk, in the Python I/O layer and in the operating
    system is modelled next to them, each piece with the behaviour its
    documentation gives. *)

From Stdlib Require Import NArith ZArith Lia.
From Stdlib.Strings Require Import Byte String.
From stdpp Require Import base option list gmap.

Local Open Scope N_scope.

(** ** Python values *)

(** A Python [str] is a sequence of code points. *)
Definition codepoint := N.
Abbreviation pystr := (list codepoint).

Definition LF : codepoint := 0x0A.
Definition CR : codepoint := 0x0D.

(** Truth value of a [str] in an [if]: every non-empty string is true. *)
Definition truthy (s : pystr) : bool :=
  match s with [] => false | _ :: _ => true end.

(** Truth value of [self.current_file], which is [None] or a [str]. *)
Definition truthy_opt (o : option pystr) : bool :=
  match o with None => false | Some s => truthy s end.

(** The exceptions the handlers can catch. *)
Inductive exception :=
  | FileNotFoundError
  | IsADirectoryError
  | PermissionError
  | UnicodeDecodeError
  | UnicodeEncodeError.

Inductive result (A : Type) :=
  | Ok (a : A)
  | Raise (e : exception).
Arguments Ok {A} a.
Arguments Raise {A} e.

(** ** The [utf-8] codec, [errors='strict'] *)

Module Utf8.

Definition byte_of (n : N) : byte :=
  match Byte.of_N n with Some b => b | None => Byte.x00 end.

Definition is_surrogate (c : codepoint) : bool :=
  (0xD800 <=? c) && (c <=? 0xDFFF).

(** One code point to its one to four bytes; lone surrogates and values
    above U+10FFFF have no encoding. *)
Definition encode_cp (c : codepoint) : option (list byte) :=
  if c <? 0x80 then Some [byte_of c]
  else if c <? 0x800 then
    Some [byte_of (0xC0 + c / 64); byte_of (0x80 + c mod 64)]
  else if c <? 0x10000 then
    if is_surrogate c then None
    else Some [byte_of (0xE0 + c / 4096);
               byte_of (0x80 + (c / 64) mod 64);
               byte_of (0x80 + c mod 64)]
  else if c <? 0x110000 then
    Some [byte_of (0xF0 + c / 262144);
          byte_of (0x80 + (c / 4096) mod 64);
          byte_of (0x80 + (c / 64) mod 64);
          byte_of (0x80 + c mod 64)]
  else None.

Fixpoint encode (s : pystr) : option (list byte) :=
  match s with
  | [] => Some []
  | c :: s' =>
      match encode_cp c, encode s' with
      | Some bs, Some bs' => Some (bs ++ bs')
      | _, _ => None
      end
  end.

(** [between lo hi b]: the byte lies in the closed range. *)
Definition between (lo hi : N) (b : byte) : bool :=
  (lo <=? Byte.to_N b) && (Byte.to_N b <=? hi).

(** Payload of a continuation byte. *)
Definition low6 (b : byte) : N := Byte.to_N b - 0x80.

(** The well-formed byte sequences of the Unicode standard (table 3-7):
    shortest form only, no surrogates, nothing above U+10FFFF. *)
Fixpoint decode (bs : list byte) : option pystr :=
  match bs with
  | [] => Some []
  | b0 :: r0 =>
      let n0 := Byte.to_N b0 in
      if n0 <? 0x80 then
        match decode r0 with Some s => Some (n0 :: s) | None => None end
      else if between 0xC2 0xDF b0 then
        match r0 with
        | b1 :: r1 =>
            if between 0x80 0xBF b1 then
              match decode r1 with
              | Some s => Some ((n0 - 0xC0) * 64 + low6 b1 :: s)
              | None => None
              end
            else None
        | _ => None
        end
      else if between 0xE0 0xEF b0 then
        match r0 with
        | b1 :: b2 :: r2 =>
            if between (if n0 =? 0xE0 then 0xA0 else 0x80)
                       (if n0 =? 0xED then 0x9F else 0xBF) b1
               && between 0x80 0xBF b2 then
              match decode r2 with
              | Some s =>
                  Some ((n0 - 0xE0) * 4096 + low6 b1 * 64 + low6 b2 :: s)
              | None => None
              end
            else None
        | _ => None
        end
      else if between 0xF0 0xF4 b0 then
        match r0 with
        | b1 :: b2 :: b3 :: r3 =>
            if between (if n0 =? 0xF0 then 0x90 else 0x80)
                       (if n0 =? 0xF4 then 0x8F else 0xBF) b1
               && between 0x80 0xBF b2 && between 0x80 0xBF b3 then
              match decode r3 with
              | Some s =>
                  Some ((n0 - 0xF0) * 262144 + low6 b1 * 4096
                        + low6 b2 * 64 + low6 b3 :: s)
              | None => None
              end
            else None
        | _ => None
        end
      else None
  end.

End Utf8.

(** A literal of the source file, which is UTF-8, as the [str] it denotes. *)
Definition py (s : string) : pystr :=
  match Utf8.decode (list_byte_of_string s) with
  | Some t => t
  | None => []
  end.
Arguments py s%_string.

(** ** Text files: [open(path, mode, encoding='utf-8')] *)

(** With [newline=None], reading turns every ["\r\n"] and every lone
    ["\r"] into ["\n"]. *)
Fixpoint universal_newlines (s : pystr) : pystr :=
  match s with
  | [] => []
  | c :: r =>
      if c =? CR then
        LF :: match r with
              | d :: r' =>
                  if d =? LF then universal_newlines r'
                  else universal_newlines r
              | [] => []
              end
      else c :: universal_newlines r
  end.

Inductive platform := Posix | Windows.

Definition os_linesep (os : platform) : pystr :=
  match os with Posix => [LF] | Windows => [CR; LF] end.

(** With [newline=None], writing turns every ["\n"] into [os.linesep]. *)
Fixpoint translate_newlines (linesep : pystr) (s : pystr) : pystr :=
  match s with
  | [] => []
  | c :: r =>
      (if c =? LF then linesep else [c]) ++ translate_newlines linesep r
  end.

(** What a path names on the disk.  [Vacant c]: the directory of the path
    is there but holds nothing of that name, and [c] tells whether it lets
    a file be created.  A path the disk does not list has no directory to
    be in: nothing can be opened there, and nothing created. *)
Inductive node :=
  | File (readable writable : bool) (data : list byte)
  | Directory
  | Vacant (creatable : bool).

Abbreviation disk := (gmap pystr node).

(** [open(path, 'r')]: the bytes the handle will read. *)
Definition open_r (path : pystr) (d : disk) : result (list byte) :=
  match d !! path with
  | None => Raise FileNotFoundError
  | Some (Vacant _) => Raise FileNotFoundError
  | Some Directory => Raise IsADirectoryError
  | Some (File r _ data) => if r then Ok data else Raise PermissionError
  end.

(** [f.read()] on a handle opened for reading: decode it all. *)
Definition f_read (data : list byte) : result pystr :=
  match Utf8.decode data with
  | Some s => Ok (universal_newlines s)
  | None => Raise UnicodeDecodeError
  end.

(** [open(path, 'w')]: a file that is there is truncated on the spot; one
    that is not is created, when its directory is there and allows it. *)
Definition open_w (path : pystr) (d : disk) : result disk :=
  match d !! path with
  | None => Raise FileNotFoundError
  | Some (Vacant c) =>
      if c then Ok (<[path := File true true []]> d)
      else Raise PermissionError
  | Some Directory => Raise IsADirectoryError
  | Some (File r w _) =>
      if w then Ok (<[path := File r w []]> d) else Raise PermissionError
  end.

(** [f.write(s)] followed by the close at the end of the [with] block, on
    a handle that [open_w] has just returned for [path]. *)
Definition f_write (os : platform) (s : pystr) (path : pystr) (d : disk)
  : result disk :=
  match Utf8.encode (translate_newlines (os_linesep os) s) with
  | Some bs =>
      Ok (match d !! path with
          | Some (File r w _) => <[path := File r w bs]> d
          | _ => d
          end)
  | None => Raise UnicodeEncodeError
  end.

(** ** The [tk.Text] widget *)

(** The widget always ends in a newline of its own, which is not part of
    [chars] and which no command removes.  The modified flag is raised by
    every insertion and deletion of characters. *)
Record TkText := {
  chars : pystr;
  modified : bool;
}.

(** [get(1.0, tk.END)]: [tk.END] lies behind the final newline. *)
Definition text_get_all (t : TkText) : pystr := chars t ++ [LF].

(** [delete(1.0, tk.END)] *)
Definition text_delete_all (t : TkText) : TkText :=
  {| chars := []; modified := modified t || truthy (chars t) |}.

(** [insert(tk.END, s)]: appended in front of the final newline. *)
Definition text_insert_end (s : pystr) (t : TkText) : TkText :=
  {| chars := chars t ++ s; modified := modified t || truthy s |}.

(** [edit_modified(flag)] *)
Definition text_set_modified (flag : bool) (t : TkText) : TkText :=
  {| chars := chars t; modified := flag |}.

(** ** The application *)

Inductive dialog :=
  | AskYesNoCancel (title message : pystr)
  | AskOpenFilename
  | AskSaveAsFilename
  | ShowError (title message : pystr) (e : exception)
  | ShowInfo (title message : pystr).

(** What the user answers in each dialog: [askyesnocancel] gives [True],
    [False] or [None]; the file dialogs give a path, or the empty string
    when they are dismissed. *)
Record user := {
  askyesnocancel : option bool;
  askopenfilename : pystr;
  asksaveasfilename : pystr;
}.

(** The fields of the [MarkdownEditor] instance. *)
Record MarkdownEditor := {
  current_file : option pystr;
  text_editor : TkText;
  preview : pystr;
  status_var : pystr;
  title : pystr;
}.

(** [random_state] is the state of the interpreter that lies outside the
    instance and that library code may read and change as it runs, the
    random generator for one. *)
Record world := {
  self : MarkdownEditor;
  files : disk;
  shown : list dialog;
  random_state : N;
}.

Definition with_self (f : MarkdownEditor -> MarkdownEditor) (w : world) : world :=
  {| self := f (self w); files := files w; shown := shown w;
     random_state := random_state w |}.

Definition with_files (d : disk) (w : world) : world :=
  {| self := self w; files := d; shown := shown w;
     random_state := random_state w |}.

Definition show (x : dialog) (w : world) : world :=
  {| self := self w; files := files w; shown := shown w ++ [x];
     random_state := random_state w |}.

Definition with_random_state (r : N) (w : world) : world :=
  {| self := self w; files := files w; shown := shown w;
     random_state := r |}.

Definition set_current_file (o : option pystr) (e : MarkdownEditor) :=
  {| current_file := o; text_editor := text_editor e; preview := preview e;
     status_var := status_var e; title := title e |}.

Definition on_text_editor (f : TkText -> TkText) (e : MarkdownEditor) :=
  {| current_file := current_file e; text_editor := f (text_editor e);
     preview := preview e; status_var := status_var e; title := title e |}.

Definition set_html (html : pystr) (e : MarkdownEditor) :=
  {| current_file := current_file e; text_editor := text_editor e;
     preview := html; status_var := status_var e; title := title e |}.

Definition set_status (s : pystr) (e : MarkdownEditor) :=
  {| current_file := current_file e; text_editor := text_editor e;
     preview := preview e; status_var := s; title := title e |}.

Definition set_title (s : pystr) (e : MarkdownEditor) :=
  {| current_file := current_file e; text_editor := text_editor e;
     preview := preview e; status_var := status_var e; title := s |}.

(** [__init__], with [StringVar()] starting empty. *)
Definition init : MarkdownEditor :=
  {| current_file := None;
     text_editor := {| chars := []; modified := false |};
     preview := py "<h3>开始编辑...</h3>";
     status_var := [];
     title := py "Simineq Markdown Editor" |}.

Section Handlers.

(** The host: its line separator, [os.path.basename], and
    [markdown2.markdown].  The converter is third-party code: besides the
    text and the extras it gets the state outside the instance and gives
    back, with the HTML, the state it leaves, so that two calls on one
    text need not agree.  It is taken to return. *)
Variable os : platform.
Variable basename : pystr -> pystr.
Variable markdown : N -> pystr -> list pystr -> pystr * N.

(** The [try] block of [save_file], taken when [self.current_file] holds
    [path]. *)
Definition save_file_try (path : pystr) (w : world) : world :=
  match open_w path (files w) with
  | Raise e => show (ShowError (py "错误") (py "保存失败: ") e) w
  | Ok d =>
      let w := with_files d w in
      match f_write os (text_get_all (text_editor (self w))) path d with
      | Raise e => show (ShowError (py "错误") (py "保存失败: ") e) w
      | Ok d =>
          let w := with_files d w in
          let w := with_self (on_text_editor (text_set_modified false)) w in
          with_self (set_status (py "已保存到: " ++ path)) w
      end
  end.

(** [save_as_file], with its call of [self.save_file] left open. *)
Definition save_as_file_body (save_file : user -> world -> option world)
    (u : user) (w : world) : option world :=
  let w := show AskSaveAsFilename w in
  let file_path := asksaveasfilename u in
  if truthy file_path then
    let w := with_self (set_current_file (Some file_path)) w in
    save_file u w
  else Some w.

(** [save_file] and [save_as_file] call each other; [depth] bounds the
    nesting of the calls, and [None] means it was not enough. *)
Fixpoint save_file (depth : nat) (u : user) (w : world) : option world :=
  match depth with
  | O => None
  | S depth =>
      match current_file (self w) with
      | Some path =>
          if truthy path then Some (save_file_try path w)
          else save_as_file_body (save_file depth) u w
      | None => save_as_file_body (save_file depth) u w
      end
  end.

Definition save_as_file (depth : nat) (u : user) (w : world) : option world :=
  match depth with
  | O => None
  | S depth => save_as_file_body (save_file depth) u w
  end.

(** The last four statements of [new_file]. *)
Definition new_file_clear (w : world) : world :=
  let w := with_self (on_text_editor text_delete_all) w in
  let w := with_self (set_current_file None) w in
  let w := with_self (set_title (py "未命名文档 - Simineq Markdown Editor")) w in
  with_self (set_status (py "已创建新文档")) w.

Definition new_file (depth : nat) (u : user) (w : world) : option world :=
  match depth with
  | O => None
  | S depth =>
      if modified (text_editor (self w)) then
        let w := show (AskYesNoCancel (py "保存提示") (py "是否保存当前修改？")) w in
        match askyesnocancel u with
        | None => Some w
        | Some true =>
            match save_file depth u w with
            | Some w => Some (new_file_clear w)
            | None => None
            end
        | Some false => Some (new_file_clear w)
        end
      else Some (new_file_clear w)
  end.

Definition open_file (u : user) (w : world) : world :=
  let w := show AskOpenFilename w in
  let file_path := askopenfilename u in
  if truthy file_path then
    match open_r file_path (files w) with
    | Raise e => show (ShowError (py "错误") (py "文件读取失败: ") e) w
    | Ok f =>
        let w := with_self (on_text_editor text_delete_all) w in
        match f_read f with
        | Raise e => show (ShowError (py "错误") (py "文件读取失败: ") e) w
        | Ok s =>
            let w := with_self (on_text_editor (text_insert_end s)) w in
            let w := with_self (set_current_file (Some file_path)) w in
            let w := with_self
                       (set_title (basename file_path
                                   ++ py " - Simineq Markdown Editor")) w in
            with_self (set_status (py "已打开: " ++ file_path)) w
        end
    end
  else w.

Definition update_preview (w : world) : world :=
  let content := text_get_all (text_editor (self w)) in
  let (html, r) :=
    markdown (random_state w) content [py "fenced-code-blocks"; py "tables"]
  in
  with_self (set_html html) (with_random_state r w).

Definition show_about (w : world) : world :=
  show (ShowInfo (py "关于")
          (py "Simineq Markdown Editor v1.0

遵循GPL-3.0协议开源

作者：慈父斯大林

联系方式：contact@jingsublog.top")) w.

(** The bindings of [_create_menu] and [_bind_events]. *)
Inductive event :=
  | KeyRelease
  | Control_n
  | Control_s
  | MenuNew
  | MenuOpen
  | MenuSave
  | MenuSaveAs
  | MenuAbout.

Definition handle (depth : nat) (ev : event) (u : user) (w : world)
  : option world :=
  match ev with
  | KeyRelease => Some (update_preview w)
  | Control_n | MenuNew => new_file depth u w
  | Control_s | MenuSave => save_file depth u w
  | MenuSaveAs => save_as_file depth u w
  | MenuOpen => Some (open_file u w)
  | MenuAbout => Some (show_about w)
  end.

End Handlers.

(** ** Vocabulary of the statements *)

(** The path [save_file] ends up writing to: [self.current_file], or else
    the answer given in the save-as dialog. *)
Definition save_target (u : user) (w : world) : pystr :=
  match current_file (self w) with
  | Some path => if truthy path then path else asksaveasfilename u
  | None => asksaveasfilename u
  end.

(** The [try] block of [save_file] raises for [path]: at [open], or at
    [f.write]. *)
Definition write_raises (os : platform) (path : pystr) (w : world) : Prop :=
  (exists e, open_w path (files w) = Raise e)
  \/ Utf8.encode (translate_newlines (os_linesep os)
                    (text_get_all (text_editor (self w)))) = None.

(** ** Concrete worlds *)

Module Examples.

Definition note_md : pystr := py "note.md".
Definition docs_dir : pystr := py "/home/me/docs".

(** The application right after start, over a given disk. *)
Definition started (d : disk) : world :=
  {| self := init; files := d; shown := []; random_state := 0 |}.

(** The same after the user has typed [s] into the text widget. *)
Definition typed (s : pystr) (d : disk) : world :=
  with_self (on_text_editor (text_insert_end s)) (started d).

Definition answers (yn : option bool) (open_path save_path : pystr) : user :=
  {| askyesnocancel := yn;
     askopenfilename := open_path;
     asksaveasfilename := save_path |}.

(** A disk with one file, [note.md], holding [data]. *)
Definition one_file (data : list byte) : disk :=
  {[ note_md := File true true data ]}.

(** A disk with one directory. *)
Definition one_dir : disk := {[ docs_dir := Directory ]}.

(** A converter to run the preview with: it wraps the text in a
    paragraph, whatever the extras, and leaves the state alone. *)
Definition paragraph (r : N) (s : pystr) (extras : list pystr) : pystr * N :=
  (py "<p>" ++ s ++ py "</p>", r).

(** [note.md] holds ["abc"]; nothing typed yet; the user picks it in the
    open dialog. *)
Definition abc_on_disk : world := started (one_file (list_byte_of_string "abc")).
Definition picks_note : user := answers None note_md [].

(** [note.md] holds the single byte [0xFF], which is not UTF-8; the buffer
    holds a draft. *)
Definition draft_and_bad_file : world := typed (py "draft") (one_file [Byte.xff]).

(** A draft, never saved, on an empty disk. *)
Definition draft : world := typed (py "draft") ∅.
Definition says_no : user := answers (Some false) [] [].
Definition says_cancel : user := answers None [] [].
Definition saves_as_note : user := answers None [] note_md.

(** A draft, never saved; the user says yes to saving and then names a
    directory in the save-as dialog. *)
Definition draft_near_dir : world := typed (py "draft") one_dir.
Definition saves_as_dir : user := answers (Some true) [] docs_dir.

End Examples.

(** ** The event loop and what a run keeps *)

(** [app.mainloop()]: the events come one at a time, each with the answers
    the user gives while it is handled, and a handler runs to its end
    before the next event is taken. *)
Fixpoint mainloop (os : platform) (basename : pystr -> pystr)
    (markdown : N -> pystr -> list pystr -> pystr * N) (depth : nat)
    (evs : list (event * user)) (w : world) : option world :=
  match evs with
  | [] => Some w
  | (ev, u) :: evs =>
      match handle os basename markdown depth ev u w with
      | Some w => mainloop os basename markdown depth evs w
      | None => None
      end
  end.

(** [d'] keeps what [d] has: every path is still there, a directory is
    still a directory, a file has its permission bits, and a file that is
    not writable has its content.  Where no file can be created, there is
    none afterwards either. *)
Definition keeps (d d' : disk) : Prop :=
  forall p,
    match d !! p with
    | None => True
    | Some Directory => d' !! p = Some Directory
    | Some (File r x data) =>
        if x then exists data', d' !! p = Some (File r x data')
        else d' !! p = Some (File r x data)
    | Some (Vacant c) => if c then True else d' !! p = Some (Vacant false)
    end.

(** [self.current_file] is [None] or a non-empty string. *)
Definition path_set_or_none (w : world) : Prop :=
  current_file (self w) <> Some [].

(** ** Concrete runs *)

Module Runs.
Import Examples.

(** A draft under the name [note.md], over a given disk. *)
Definition named_draft (d : disk) : world :=
  with_self (set_current_file (Some note_md)) (typed (py "draft") d).

(** The same with a lone surrogate in the buffer, which has no UTF-8
    encoding. *)
Definition named_surrogate (d : disk) : world :=
  with_self (set_current_file (Some note_md)) (typed [0xD800] d).

(** [note.md] holds ["abc"] and may not be written. *)
Definition read_only : disk :=
  {[ note_md := File true false (list_byte_of_string "abc") ]}.


(** [note.md] holds two lines that end in carriage return and line feed. *)
Definition crlf_file : disk :=
  one_file (list_byte_of_string "a" ++ [Byte.x0d; Byte.x0a]
            ++ list_byte_of_string "b" ++ [Byte.x0d; Byte.x0a]).

Definition says_yes_note : user := answers (Some true) [] note_md.

(** Nothing is called [note.md] yet, in a directory that lets files be
    created. *)
Definition room_for_note : disk := {[ note_md := Vacant true ]}.

(** The same next to the directory. *)
Definition dir_and_room : disk := <[note_md := Vacant true]> one_dir.

(** A session: type nothing, try to save under the name of a directory,
    save as [note.md], create a new document, open [note.md] again. *)
Definition session : list (event * user) :=
  [(MenuSaveAs, saves_as_dir); (MenuSaveAs, saves_as_note);
   (KeyRelease, says_cancel); (MenuNew, says_no); (MenuOpen, picks_note)].

End Runs.

(** * Facts *)

(** ** The codec is a bijection between encodable text and well-formed
    bytes *)

Module Utf8Facts.
Import Utf8.

Ltac narith := zify; Z.to_euclidean_division_equations; lia.

Ltac split_cmp :=
  first
  [ match goal with
    | |- context [?a =? ?b] => destruct (N.eqb_spec a b); try (exfalso; lia)
    end
  | match goal with
    | |- context [?a <? ?b] => destruct (N.ltb_spec a b); try (exfalso; lia)
    | |- context [?a <=? ?b] => destruct (N.leb_spec a b); try (exfalso; lia)
    end ]; cbn [andb].

Ltac forget t := let x := fresh "d" in set (x := t) in *; clearbody x.

Ltac same_bytes :=
  repeat match goal with
  | |- Some _ = Some _ => f_equal
  | |- _ :: _ = _ :: _ => f_equal
  | |- byte_of _ = byte_of _ => f_equal
  end; try narith.

Lemma to_N_byte_of n : n < 256 -> Byte.to_N (byte_of n) = n.
Proof.
  intros H. unfold byte_of.
  destruct (Byte.of_N n) as [b|] eqn:E.
  - by apply Byte.to_of_N.
  - apply Byte.of_N_None_iff in E. lia.
Qed.

Lemma byte_of_to_N b : byte_of (Byte.to_N b) = b.
Proof. unfold byte_of. by rewrite Byte.of_to_N. Qed.

Lemma between_spec lo hi b :
  between lo hi b = true <-> lo <= Byte.to_N b /\ Byte.to_N b <= hi.
Proof. unfold between. by rewrite andb_true_iff, !N.leb_le. Qed.

(** The base-64 digits of a code point. *)
Lemma digits2 c :
  c = c / 64 * 64 + c mod 64 /\ c mod 64 < 64.
Proof. narith. Qed.

Lemma digits3 c :
  c = c / 4096 * 4096 + (c / 64) mod 64 * 64 + c mod 64
  /\ (c / 64) mod 64 < 64 /\ c mod 64 < 64.
Proof. narith. Qed.

Lemma digits4 c :
  c = c / 262144 * 262144 + (c / 4096) mod 64 * 4096
      + (c / 64) mod 64 * 64 + c mod 64
  /\ (c / 4096) mod 64 < 64 /\ (c / 64) mod 64 < 64 /\ c mod 64 < 64.
Proof. narith. Qed.

Lemma decode_encode_cp c bs rest :
  encode_cp c = Some bs ->
  decode (bs ++ rest) =
    match decode rest with Some s => Some (c :: s) | None => None end.
Proof.
  unfold encode_cp, is_surrogate.
  repeat split_cmp; intros [= <-]; cbn [decode app]; unfold between, low6.
  - rewrite !to_N_byte_of by lia. repeat split_cmp. done.
  - destruct (digits2 c) as (? & ?).
    forget (c / 64); forget (c mod 64).
    rewrite !to_N_byte_of by lia. repeat split_cmp.
    destruct (decode rest); [|done]. do 2 f_equal. lia.
  - destruct (digits3 c) as (? & ? & ?).
    forget (c / 4096); forget ((c / 64) mod 64); forget (c mod 64).
    rewrite !to_N_byte_of by lia.
    repeat split_cmp; (destruct (decode rest); [|done]); do 2 f_equal; lia.
  - destruct (digits3 c) as (? & ? & ?).
    forget (c / 4096); forget ((c / 64) mod 64); forget (c mod 64).
    rewrite !to_N_byte_of by lia.
    repeat split_cmp; (destruct (decode rest); [|done]); do 2 f_equal; lia.
  - destruct (digits4 c) as (? & ? & ? & ?).
    forget (c / 262144); forget ((c / 4096) mod 64);
      forget ((c / 64) mod 64); forget (c mod 64).
    rewrite !to_N_byte_of by lia.
    repeat split_cmp; (destruct (decode rest); [|done]); do 2 f_equal; lia.
Qed.

Lemma decode_encode s bs : encode s = Some bs -> decode bs = Some s.
Proof.
  revert bs. induction s as [|c s IH]; intros bs; cbn [encode].
  - by intros [= <-].
  - destruct (encode_cp c) as [b|] eqn:Ec; [|done].
    destruct (encode s) as [bs'|]; [|done]. intros [= <-].
    rewrite (decode_encode_cp _ _ _ Ec), (IH bs'); done.
Qed.

Lemma encode_cp_1 n : n < 0x80 -> encode_cp n = Some [byte_of n].
Proof. intros. unfold encode_cp. by repeat split_cmp. Qed.

Lemma encode_cp_2 n0 n1 :
  0xC2 <= n0 <= 0xDF -> 0x80 <= n1 <= 0xBF ->
  encode_cp ((n0 - 0xC0) * 64 + (n1 - 0x80)) = Some [byte_of n0; byte_of n1].
Proof.
  intros. unfold encode_cp. repeat split_cmp. same_bytes.
Qed.

Lemma encode_cp_3 n0 n1 n2 :
  0xE0 <= n0 <= 0xEF ->
  (if n0 =? 0xE0 then 0xA0 else 0x80) <= n1 ->
  n1 <= (if n0 =? 0xED then 0x9F else 0xBF) ->
  0x80 <= n2 <= 0xBF ->
  encode_cp ((n0 - 0xE0) * 4096 + (n1 - 0x80) * 64 + (n2 - 0x80))
  = Some [byte_of n0; byte_of n1; byte_of n2].
Proof.
  intros ?. repeat split_cmp; intros; unfold encode_cp, is_surrogate;
    repeat split_cmp; same_bytes.
Qed.

Lemma encode_cp_4 n0 n1 n2 n3 :
  0xF0 <= n0 <= 0xF4 ->
  (if n0 =? 0xF0 then 0x90 else 0x80) <= n1 ->
  n1 <= (if n0 =? 0xF4 then 0x8F else 0xBF) ->
  0x80 <= n2 <= 0xBF -> 0x80 <= n3 <= 0xBF ->
  encode_cp ((n0 - 0xF0) * 262144 + (n1 - 0x80) * 4096
             + (n2 - 0x80) * 64 + (n3 - 0x80))
  = Some [byte_of n0; byte_of n1; byte_of n2; byte_of n3].
Proof.
  intros ?. repeat split_cmp; intros; unfold encode_cp, is_surrogate;
    repeat split_cmp; same_bytes.
Qed.

(** [decode] eats one to four bytes a step, so the induction is on a bound
    of the length. *)
Lemma encode_decode_bounded (n : nat) bs s :
  (length bs <= n)%nat -> decode bs = Some s -> encode s = Some bs.
Proof.
  revert bs s. induction n as [|n IH]; intros bs s Hn.
  { destruct bs; [|cbn in Hn; lia]. by intros [= <-]. }
  destruct bs as [|b0 r0]; [by intros [= <-]|].
  cbn [decode]. cbn [length] in Hn.
  destruct (Byte.to_N b0 <? 0x80) eqn:E1.
  { destruct (decode r0) as [s'|] eqn:Er; [|done]. intros [= <-].
    apply N.ltb_lt in E1.
    cbn [encode]. rewrite (encode_cp_1 _ E1), byte_of_to_N.
    rewrite (IH r0 s') by (done || lia). done. }
  destruct (between 0xC2 0xDF b0) eqn:E2.
  { destruct r0 as [|b1 r1]; [done|].
    destruct (between 0x80 0xBF b1) eqn:E3; [|done].
    destruct (decode r1) as [s'|] eqn:Er; [|done]. intros [= <-].
    apply between_spec in E2, E3. cbn [length] in Hn.
    cbn [encode]. unfold low6. rewrite encode_cp_2 by lia.
    rewrite !byte_of_to_N, (IH r1 s') by (done || lia). done. }
  destruct (between 0xE0 0xEF b0) eqn:E4.
  { destruct r0 as [|b1 [|b2 r2]]; [done..|].
    match goal with
    | |- context [?a && ?b] =>
        destruct a eqn:E5; [|done]; destruct b eqn:E6; [|done]
    end.
    cbn [andb].
    destruct (decode r2) as [s'|] eqn:Er; [|done]. intros [= <-].
    apply between_spec in E4, E5, E6. cbn [length] in Hn.
    cbn [encode]. unfold low6. rewrite encode_cp_3 by lia.
    rewrite !byte_of_to_N, (IH r2 s') by (done || lia). done. }
  destruct (between 0xF0 0xF4 b0) eqn:E7; [|done].
  destruct r0 as [|b1 [|b2 [|b3 r3]]]; [done..|].
  match goal with
  | |- context [?a && ?b && ?c] =>
      destruct a eqn:E5; [|done]; destruct b eqn:E6; [|done];
      destruct c eqn:E8; [|done]
  end.
  cbn [andb].
  destruct (decode r3) as [s'|] eqn:Er; [|done]. intros [= <-].
  apply between_spec in E7, E5, E6, E8. cbn [length] in Hn.
  cbn [encode]. unfold low6. rewrite encode_cp_4 by lia.
  rewrite !byte_of_to_N, (IH r3 s') by (done || lia). done.
Qed.

Lemma encode_decode bs s : decode bs = Some s -> encode s = Some bs.
Proof. by apply (encode_decode_bounded (length bs)). Qed.

Lemma encode_app s t :
  encode (s ++ t) =
    match encode s, encode t with
    | Some a, Some b => Some (a ++ b)
    | _, _ => None
    end.
Proof.
  induction s as [|c s IH]; cbn [encode app].
  - by destruct (encode t).
  - rewrite IH. destruct (encode_cp c), (encode s), (encode t); try done.
    by rewrite app_assoc.
Qed.

Lemma encode_is_Some s :
  is_Some (encode s) <-> Forall (fun c => is_Some (encode_cp c)) s.
Proof.
  induction s as [|c s IH]; cbn [encode].
  - split; [constructor | by eexists].
  - rewrite Forall_cons, <- IH.
    destruct (encode_cp c), (encode s); split;
      try (intros [? ?]; done); try (intros [[? ?] [? ?]]; done); eauto.
Qed.

Lemma encode_cp_LF : is_Some (encode_cp LF).
Proof. by eexists. Qed.

Lemma encode_cp_CR : is_Some (encode_cp CR).
Proof. by eexists. Qed.

End Utf8Facts.

(** ** Newline translation *)

Section Newlines.

Variable P : codepoint -> Prop.

Lemma universal_newlines_Forall_bounded (n : nat) s :
  (length s <= n)%nat -> P LF -> Forall P s -> Forall P (universal_newlines s).
Proof.
  revert s. induction n as [|n IH]; intros s Hn HLF Hs.
  { destruct s; [constructor | cbn in Hn; lia]. }
  destruct s as [|c r]; [constructor|].
  cbn [universal_newlines]. cbn [length] in Hn.
  apply Forall_cons in Hs as [Hc Hr].
  destruct (c =? CR).
  - constructor; [done|]. destruct r as [|d r']; [constructor|].
    cbn [length] in Hn. destruct (d =? LF).
    + apply Forall_cons in Hr as [_ Hr]. apply IH; [lia|done..].
    + apply IH; [cbn [length]; lia|done..].
  - constructor; [done|]. apply IH; [lia|done..].
Qed.

Lemma universal_newlines_Forall s :
  P LF -> Forall P s -> Forall P (universal_newlines s).
Proof. by apply (universal_newlines_Forall_bounded (length s)). Qed.

Lemma translate_newlines_Forall linesep s :
  Forall P linesep -> Forall P s -> Forall P (translate_newlines linesep s).
Proof.
  intros Hl. induction 1 as [|c r Hc Hr IH]; cbn [translate_newlines].
  - constructor.
  - apply Forall_app. split; [|done]. destruct (c =? LF); [done|by constructor].
Qed.

End Newlines.

Lemma universal_newlines_no_CR_bounded (n : nat) s :
  (length s <= n)%nat -> Forall (fun c => c <> CR) (universal_newlines s).
Proof.
  revert s. induction n as [|n IH]; intros s Hn.
  { destruct s; [constructor | cbn in Hn; lia]. }
  destruct s as [|c r]; [constructor|].
  cbn [universal_newlines]. cbn [length] in Hn.
  destruct (N.eqb_spec c CR).
  - constructor; [done|]. destruct r as [|d r']; [constructor|].
    cbn [length] in Hn. destruct (d =? LF); apply IH; cbn [length]; lia.
  - constructor; [done|]. apply IH. lia.
Qed.

Lemma universal_newlines_no_CR s :
  Forall (fun c => c <> CR) (universal_newlines s).
Proof. by apply (universal_newlines_no_CR_bounded (length s)). Qed.

(** Reading back what was written gives the text that was written, when
    that text holds no carriage return. *)
Lemma universal_translate os s :
  Forall (fun c => c <> CR) s ->
  universal_newlines (translate_newlines (os_linesep os) s) = s.
Proof.
  induction 1 as [|c r Hc Hr IH]; [done|].
  cbn [translate_newlines]. destruct (N.eqb_spec c LF) as [->|Hn].
  - destruct os; cbn [os_linesep app] in *; cbn [universal_newlines].
    + change (LF =? CR) with false. cbv iota. by rewrite IH.
    + rewrite !N.eqb_refl. by rewrite IH.
  - cbn [app universal_newlines]. destruct (N.eqb_spec c CR); [done|].
    by rewrite IH.
Qed.

Lemma universal_id s :
  Forall (fun c => c <> CR) s -> universal_newlines s = s.
Proof.
  induction 1 as [|c r Hc Hr IH]; [done|].
  cbn [universal_newlines]. destruct (N.eqb_spec c CR); [done|]. by rewrite IH.
Qed.

Lemma translate_posix s : translate_newlines (os_linesep Posix) s = s.
Proof.
  change (os_linesep Posix) with [LF].
  induction s as [|c r IH]; [done|]. cbn [translate_newlines].
  destruct (N.eqb_spec c LF) as [->|]; cbn [app]; by rewrite IH.
Qed.

(** What [f.read()] returns can always be written again. *)
Lemma written_text_encodable os s bs :
  Utf8.decode bs = Some s ->
  is_Some (Utf8.encode (translate_newlines (os_linesep os)
                          (universal_newlines s ++ [LF]))).
Proof.
  intros Hd%Utf8Facts.encode_decode.
  apply Utf8Facts.encode_is_Some, translate_newlines_Forall.
  - destruct os; repeat constructor;
      auto using Utf8Facts.encode_cp_LF, Utf8Facts.encode_cp_CR.
  - apply Forall_app. split.
    + apply universal_newlines_Forall;
        [apply Utf8Facts.encode_cp_LF | by apply Utf8Facts.encode_is_Some].
    + repeat constructor. apply Utf8Facts.encode_cp_LF.
Qed.

(** ** The handlers *)

Section Facts.

Context (os : platform) (basename : pystr -> pystr)
        (markdown : N -> pystr -> list pystr -> pystr * N).

(** *** With enough depth the handlers return *)

Lemma save_file_set n u w path :
  current_file (self w) = Some path -> truthy path = true ->
  save_file os (S n) u w = Some (save_file_try os path w).
Proof. intros Hc Hp. cbn [save_file]. by rewrite Hc, Hp. Qed.

Lemma save_file_unset n u w :
  truthy_opt (current_file (self w)) = false ->
  save_file os (S n) u w = save_as_file os (S n) u w.
Proof.
  intros Hc. cbn [save_file save_as_file].
  destruct (current_file (self w)) as [p|]; [|done].
  cbn [truthy_opt] in Hc. by rewrite Hc.
Qed.

Lemma save_as_file_chosen n u w :
  truthy (asksaveasfilename u) = true ->
  save_as_file os (S (S n)) u w =
    Some (save_file_try os (asksaveasfilename u)
            (with_self (set_current_file (Some (asksaveasfilename u)))
               (show AskSaveAsFilename w))).
Proof.
  intros Hp. cbn [save_as_file]. unfold save_as_file_body. rewrite Hp.
  by apply save_file_set.
Qed.

Lemma save_as_file_dismissed n u w :
  truthy (asksaveasfilename u) = false ->
  save_as_file os (S n) u w = Some (show AskSaveAsFilename w).
Proof.
  intros Hp. cbn [save_as_file]. unfold save_as_file_body. by rewrite Hp.
Qed.

(** [save_file] in one equation: which world it returns. *)
Lemma save_file_eq n u w :
  save_file os (S (S n)) u w =
    Some (if truthy_opt (current_file (self w)) then
            save_file_try os (save_target u w) w
          else if truthy (save_target u w) then
            save_file_try os (save_target u w)
              (with_self (set_current_file (Some (save_target u w)))
                 (show AskSaveAsFilename w))
          else show AskSaveAsFilename w).
Proof.
  unfold save_target.
  destruct (truthy_opt (current_file (self w))) eqn:Hc.
  - destruct (current_file (self w)) as [p|] eqn:Hf; [|done].
    cbn [truthy_opt] in Hc. rewrite Hc. by apply save_file_set.
  - rewrite save_file_unset by done.
    assert ((match current_file (self w) with
             | Some path => if truthy path then path else asksaveasfilename u
             | None => asksaveasfilename u
             end) = asksaveasfilename u) as ->.
    { destruct (current_file (self w)); [|done]. cbn [truthy_opt] in Hc.
      by rewrite Hc. }
    destruct (truthy (asksaveasfilename u)) eqn:Hp.
    + by apply save_as_file_chosen.
    + by apply save_as_file_dismissed.
Qed.

Lemma save_as_file_returns n u w : is_Some (save_as_file os (S (S n)) u w).
Proof.
  destruct (truthy (asksaveasfilename u)) eqn:Hp.
  - rewrite save_as_file_chosen by done. by eexists.
  - rewrite save_as_file_dismissed by done. by eexists.
Qed.

Lemma save_file_returns n u w : is_Some (save_file os (S (S n)) u w).
Proof. rewrite save_file_eq. by eexists. Qed.

Lemma new_file_returns n u w : is_Some (new_file os (S (S (S n))) u w).
Proof.
  cbn [new_file]. destruct (modified _); [|by eexists].
  destruct (askyesnocancel u) as [[|]|]; try by eexists.
  rewrite save_file_eq. by eexists.
Qed.

Lemma handle_returns n ev u w :
  is_Some (handle os basename markdown (S (S (S n))) ev u w).
Proof.
  destruct ev; cbn [handle]; try by eexists.
  all: try apply new_file_returns; try apply save_file_returns.
  apply save_as_file_returns.
Qed.

(** *** What the [try] block of [save_file] touches *)

Lemma save_file_try_frame path w :
  current_file (self (save_file_try os path w)) = current_file (self w)
  /\ chars (text_editor (self (save_file_try os path w)))
     = chars (text_editor (self w))
  /\ preview (self (save_file_try os path w)) = preview (self w)
  /\ title (self (save_file_try os path w)) = title (self w)
  /\ forall p, p <> path ->
       files (save_file_try os path w) !! p = files w !! p.
Proof.
  unfold save_file_try, open_w, f_write.
  destruct (files w !! path) as [[r x data| |c]|] eqn:Hl; cbn.
  - destruct x; cbn; [|by rewrite ?Hl].
    destruct (Utf8.encode _); cbn; rewrite ?lookup_insert_eq; cbn;
      repeat split; try done; intros p Hp; by rewrite ?lookup_insert_ne.
  - done.
  - destruct c; cbn; [|by rewrite ?Hl].
    destruct (Utf8.encode _); cbn; rewrite ?lookup_insert_eq; cbn;
      repeat split; try done; intros p Hp; by rewrite ?lookup_insert_ne.
  - done.
Qed.

(** When the write raises, the error is shown and nothing on the disk
    gains content: a file is as before, or empty. *)
Lemma save_file_try_raises path w :
  write_raises os path w ->
  (exists e, shown (save_file_try os path w)
             = shown w ++ [ShowError (py "错误") (py "保存失败: ") e])
  /\ self (save_file_try os path w) = self w
  /\ forall p, files (save_file_try os path w) !! p = files w !! p
               \/ exists r x,
                    files (save_file_try os path w) !! p = Some (File r x []).
Proof.
  unfold write_raises, save_file_try, f_write.
  intros [[e He]|He].
  - rewrite He. cbn. eauto 6.
  - cbn. rewrite He. destruct (open_w path (files w)) as [d|e] eqn:Ho; cbn.
    + split; [eauto|]. split; [done|]. intros p.
      unfold open_w in Ho.
      destruct (decide (p = path)) as [->|Hp].
      * right. destruct (files w !! path) as [[r x data| |c]|]; try done.
        -- destruct x; [|done]. injection Ho as <-.
           rewrite lookup_insert_eq. eauto.
        -- destruct c; [|done]. injection Ho as <-.
           rewrite lookup_insert_eq. eauto.
      * left. destruct (files w !! path) as [[r x data| |c]|]; try done.
        -- destruct x; [|done]. injection Ho as <-.
           by rewrite lookup_insert_ne.
        -- destruct c; [|done]. injection Ho as <-.
           by rewrite lookup_insert_ne.
    + eauto 6.
Qed.

(** When neither [open] nor [f.write] raises, the encoded text is the new
    content of the file and the modified flag is cleared. *)
Lemma save_file_try_written path w d bs :
  open_w path (files w) = Ok d ->
  Utf8.encode (translate_newlines (os_linesep os)
                 (text_get_all (text_editor (self w)))) = Some bs ->
  files (save_file_try os path w) !! path
    = Some (File match files w !! path with
                 | Some (File r _ _) => r
                 | _ => true
                 end true bs)
  /\ modified (text_editor (self (save_file_try os path w))) = false
  /\ status_var (self (save_file_try os path w)) = py "已保存到: " ++ path
  /\ shown (save_file_try os path w) = shown w.
Proof.
  unfold save_file_try, f_write. intros Ho He. rewrite Ho. cbn. rewrite He.
  unfold open_w in Ho.
  destruct (files w !! path) as [[r x data| |c]|] eqn:Hl; try done.
  - destruct x; [|done]. injection Ho as <-. rewrite lookup_insert_eq. cbn.
    by rewrite lookup_insert_eq.
  - destruct c; [|done]. injection Ho as <-. rewrite lookup_insert_eq. cbn.
    by rewrite lookup_insert_eq.
Qed.

Lemma save_file_try_cases path w :
  write_raises os path w
  \/ exists d bs,
       open_w path (files w) = Ok d
       /\ Utf8.encode (translate_newlines (os_linesep os)
                         (text_get_all (text_editor (self w)))) = Some bs.
Proof.
  unfold write_raises.
  destruct (open_w path (files w)) as [d|e]; [|eauto].
  destruct (Utf8.encode _) as [bs|]; eauto 6.
Qed.

(** *** [new_file] *)

Lemma new_file_clear_spec w :
  chars (text_editor (self (new_file_clear w))) = []
  /\ current_file (self (new_file_clear w)) = None
  /\ modified (text_editor (self (new_file_clear w)))
     = modified (text_editor (self w)) || truthy (chars (text_editor (self w)))
  /\ preview (self (new_file_clear w)) = preview (self w)
  /\ files (new_file_clear w) = files w
  /\ shown (new_file_clear w) = shown w.
Proof. done. Qed.

(** *** [open_file] *)

(** The dialog was dismissed: nothing happens. *)
Lemma open_file_dismissed u w :
  truthy (askopenfilename u) = false ->
  open_file basename u w = show AskOpenFilename w.
Proof. intros Hp. unfold open_file. by rewrite Hp. Qed.

(** [open] itself raises: the error is shown, and the instance and the
    disk are as before. *)
Lemma open_file_unreadable u w e :
  truthy (askopenfilename u) = true ->
  open_r (askopenfilename u) (files w) = Raise e ->
  open_file basename u w
  = show (ShowError (py "错误") (py "文件读取失败: ") e)
      (show AskOpenFilename w).
Proof. intros Hp He. unfold open_file. rewrite Hp. cbn. by rewrite He. Qed.

(** The file is read: its text replaces the buffer. *)
Lemma open_file_read u w wr data s :
  truthy (askopenfilename u) = true ->
  files w !! askopenfilename u = Some (File true wr data) ->
  Utf8.decode data = Some s ->
  chars (text_editor (self (open_file basename u w))) = universal_newlines s
  /\ current_file (self (open_file basename u w)) = Some (askopenfilename u)
  /\ files (open_file basename u w) = files w.
Proof.
  intros Hp Hl Hd. unfold open_file, open_r, f_read. rewrite Hp. cbn.
  rewrite Hl, Hd. done.
Qed.

(** *** The preview *)

Lemma save_file_preview n u w w' :
  save_file os n u w = Some w' -> preview (self w') = preview (self w).
Proof.
  revert w w'. induction n as [|n IH]; intros w w'; [done|].
  cbn [save_file]. unfold save_as_file_body.
  assert (forall w1,
    (if truthy (asksaveasfilename u)
     then save_file os n u
            (with_self (set_current_file (Some (asksaveasfilename u)))
               (show AskSaveAsFilename w1))
     else Some (show AskSaveAsFilename w1)) = Some w' ->
    preview (self w') = preview (self w1)) as Has.
  { intros w1. destruct (truthy (asksaveasfilename u)).
    - intros H%IH. by rewrite H.
    - by intros [= <-]. }
  destruct (current_file (self w)) as [p|]; [|apply Has].
  destruct (truthy p); [|apply Has].
  intros [= <-]. apply save_file_try_frame.
Qed.

Lemma save_as_file_preview n u w w' :
  save_as_file os n u w = Some w' -> preview (self w') = preview (self w).
Proof.
  destruct n as [|n]; [done|]. cbn [save_as_file]. unfold save_as_file_body.
  destruct (truthy (asksaveasfilename u)).
  - intros H%save_file_preview. by rewrite H.
  - by intros [= <-].
Qed.

Lemma new_file_preview n u w w' :
  new_file os n u w = Some w' -> preview (self w') = preview (self w).
Proof.
  destruct n as [|n]; [done|]. cbn [new_file].
  destruct (modified _); [|by intros [= <-]].
  destruct (askyesnocancel u) as [[|]|]; try by intros [= <-].
  destruct (save_file os n u _) as [w1|] eqn:Hs; [|done].
  intros [= <-]. apply save_file_preview in Hs. exact Hs.
Qed.

Lemma open_file_preview u w :
  preview (self (open_file basename u w)) = preview (self w).
Proof.
  unfold open_file. destruct (truthy _); [|done]. cbn.
  destruct (open_r _ _) as [f|e]; [|done]. cbn.
  by destruct (f_read f).
Qed.

End Facts.

(** * The claims *)

Section Claims.

Context (os : platform) (basename : pystr -> pystr)
        (markdown : N -> pystr -> list pystr -> pystr * N).

(** C1, as the code has it: opening a UTF-8 file and saving it at once
    never gives the file back.  The file then holds the encoding of the
    text read, with one more newline behind it, every newline written as
    the line separator of the host: [get(1.0, tk.END)] returns the final
    newline of the widget with the text. *)
Theorem open_then_save_alters_file n u u' w data s :
  truthy (askopenfilename u) = true ->
  files w !! askopenfilename u = Some (File true true data) ->
  Utf8.decode data = Some s ->
  exists w' data',
    save_file os (S n) u' (open_file basename u w) = Some w'
    /\ files w' !! askopenfilename u = Some (File true true data')
    /\ Utf8.decode data'
       = Some (translate_newlines (os_linesep os)
                 (universal_newlines s ++ [LF]))
    /\ data' <> data.
Proof.
  intros Hp Hl Hd.
  destruct (open_file_read basename u w true data s Hp Hl Hd)
    as (Hc & Hf & Hfs).
  destruct (written_text_encodable os s data Hd) as [bs Hbs].
  rewrite (save_file_set os n u' _ _ Hf Hp).
  assert (open_w (askopenfilename u) (files (open_file basename u w))
          = Ok (<[askopenfilename u := File true true []]> (files w))) as Ho.
  { unfold open_w. by rewrite Hfs, Hl. }
  assert (Utf8.encode
            (translate_newlines (os_linesep os)
               (text_get_all (text_editor (self (open_file basename u w)))))
          = Some bs) as He.
  { unfold text_get_all. by rewrite Hc. }
  destruct (save_file_try_written os _ _ _ _ Ho He) as (Hw & _).
  rewrite Hfs, Hl in Hw.
  exists (save_file_try os (askopenfilename u) (open_file basename u w)), bs.
  split; [done|]. split; [done|].
  apply Utf8Facts.decode_encode in Hbs as Hdb. split; [done|].
  intros ->. rewrite Hd in Hdb. injection Hdb as Hs.
  assert (Forall (fun c => c <> CR) (universal_newlines s ++ [LF])) as Hcr.
  { apply Forall_app. split; [apply universal_newlines_no_CR|].
    by repeat constructor. }
  apply (universal_translate os) in Hcr. rewrite <- Hs in Hcr.
  apply (f_equal length) in Hcr. rewrite length_app in Hcr.
  cbn [length] in Hcr. lia.
Qed.

(** On a POSIX host, for a file without carriage returns, the result is
    the file with a line feed appended. *)
Lemma open_then_save_posix n u u' w data s :
  truthy (askopenfilename u) = true ->
  files w !! askopenfilename u = Some (File true true data) ->
  Utf8.decode data = Some s ->
  Forall (fun c => c <> CR) s ->
  exists w',
    save_file Posix (S n) u' (open_file basename u w) = Some w'
    /\ files w' !! askopenfilename u
       = Some (File true true (data ++ [Byte.x0a])).
Proof.
  intros Hp Hl Hd Hcr.
  destruct (open_file_read basename u w true data s Hp Hl Hd)
    as (Hc & Hf & Hfs).
  rewrite (save_file_set Posix n u' _ _ Hf Hp).
  assert (open_w (askopenfilename u) (files (open_file basename u w))
          = Ok (<[askopenfilename u := File true true []]> (files w))) as Ho.
  { unfold open_w. by rewrite Hfs, Hl. }
  assert (Utf8.encode
            (translate_newlines (os_linesep Posix)
               (text_get_all (text_editor (self (open_file basename u w)))))
          = Some (data ++ [Byte.x0a])) as He.
  { unfold text_get_all. rewrite Hc, translate_posix, universal_id by done.
    rewrite Utf8Facts.encode_app, (Utf8Facts.encode_decode _ _ Hd). done. }
  destruct (save_file_try_written Posix _ _ _ _ Ho He) as (Hw & _).
  rewrite Hfs, Hl in Hw. eauto.
Qed.

(** C2, as the code has it: when the chosen file is readable but is not
    UTF-8, the error is shown and [current_file] is kept, but the buffer
    is empty by then: [delete] has run before [f.read()] raises. *)
Theorem open_file_undecodable_empties_buffer u w wr data :
  truthy (askopenfilename u) = true ->
  files w !! askopenfilename u = Some (File true wr data) ->
  Utf8.decode data = None ->
  truthy (chars (text_editor (self w))) = true ->
  shown (open_file basename u w)
  = shown w ++ [AskOpenFilename;
                ShowError (py "错误") (py "文件读取失败: ") UnicodeDecodeError]
  /\ current_file (self (open_file basename u w)) = current_file (self w)
  /\ files (open_file basename u w) = files w
  /\ chars (text_editor (self (open_file basename u w))) = []
  /\ chars (text_editor (self (open_file basename u w)))
     <> chars (text_editor (self w)).
Proof.
  intros Hp Hl Hd Hb. unfold open_file, open_r, f_read. rewrite Hp. cbn.
  rewrite Hl, Hd. cbn. rewrite <- app_assoc. repeat split; try done.
  by destruct (chars (text_editor (self w))).
Qed.

(** C3, as the code has it: [new_file] empties the buffer and forgets the
    path, but it never clears the modified flag.  When the user answers
    no to the prompt, the flag is still raised afterwards. *)
Theorem new_file_discard_stays_modified n u w :
  modified (text_editor (self w)) = true ->
  askyesnocancel u = Some false ->
  exists w',
    new_file os (S n) u w = Some w'
    /\ chars (text_editor (self w')) = []
    /\ current_file (self w') = None
    /\ modified (text_editor (self w')) = true.
Proof.
  intros Hm Hy. cbn [new_file]. rewrite Hm, Hy. eexists. split; [done|].
  cbn. rewrite Hm. done.
Qed.

(** C4: with unsaved changes, answering cancel to the prompt of
    [new_file] ends the handler at once: the instance (buffer, path,
    modified flag and all) and the disk are as before; only the prompt
    has been shown. *)
Theorem new_file_cancel n u w :
  modified (text_editor (self w)) = true ->
  askyesnocancel u = None ->
  exists w',
    new_file os (S n) u w = Some w'
    /\ self w' = self w
    /\ files w' = files w
    /\ shown w'
       = shown w ++ [AskYesNoCancel (py "保存提示") (py "是否保存当前修改？")].
Proof.
  intros Hm Hy. cbn [new_file]. rewrite Hm, Hy. by eexists.
Qed.


(** C9: in [new_file], when the user answers yes to the prompt and the
    save is abandoned (no path chosen) or raises, the handler goes on all
    the same: the buffer is emptied and the path forgotten, while no file
    of the disk has received anything (each is as before, or empty). *)
Theorem new_file_clears_after_failed_save n u w :
  modified (text_editor (self w)) = true ->
  askyesnocancel u = Some true ->
  truthy (save_target u w) = false \/ write_raises os (save_target u w) w ->
  exists w',
    new_file os (S (S (S n))) u w = Some w'
    /\ chars (text_editor (self w')) = []
    /\ current_file (self w') = None
    /\ forall p, files w' !! p = files w !! p
                 \/ exists r x, files w' !! p = Some (File r x []).
Proof.
  intros Hm Hy Hfail. cbn [new_file]. rewrite Hm, Hy, save_file_eq.
  eexists. split; [done|]. split; [done|]. split; [done|].
  set (w0 := show (AskYesNoCancel (py "保存提示") (py "是否保存当前修改？")) w).
  change (save_target u w0) with (save_target u w).
  change (current_file (self w0)) with (current_file (self w)).
  rewrite (proj1 (proj2 (proj2 (proj2 (proj2 (new_file_clear_spec _)))))).
  destruct (truthy_opt (current_file (self w))) eqn:Hc.
  - assert (truthy (save_target u w) = true) as Ht.
    { unfold save_target. destruct (current_file (self w)); [|done].
      cbn [truthy_opt] in Hc. by rewrite Hc. }
    destruct Hfail as [Hfail|Hr]; [congruence|].
    apply (save_file_try_raises os (save_target u w) w0 Hr).
  - destruct (truthy (save_target u w)) eqn:Ht.
    + destruct Hfail as [Hfail|Hr]; [done|].
      apply (save_file_try_raises os (save_target u w)
               (with_self (set_current_file (Some (save_target u w)))
                  (show AskSaveAsFilename w0)) Hr).
    + intros p. by left.
Qed.

(** C10: no handler but the one of the key release changes the preview.
    After [open_file] and after [new_file] in particular, it still shows
    what it showed before. *)
Theorem preview_changes_only_on_key_release n ev u w w' :
  ev <> KeyRelease ->
  handle os basename markdown n ev u w = Some w' ->
  preview (self w') = preview (self w).
Proof.
  intros Hev. destruct ev; cbn [handle]; try done.
  - apply new_file_preview.
  - apply save_file_preview.
  - apply new_file_preview.
  - intros [= <-]. apply open_file_preview.
  - apply save_file_preview.
  - apply save_as_file_preview.
  - by intros [= <-].
Qed.

End Claims.

(** * The claims on concrete worlds *)

Import Examples.

(** A literal of the source read as text: one code point per character. *)
Example py_literal : py "错误" = [0x9519; 0x8BEF].
Proof. reflexivity. Qed.

Lemma open_then_save_alters_file_abc :
  truthy (askopenfilename picks_note) = true
  /\ files abc_on_disk !! askopenfilename picks_note
     = Some (File true true (list_byte_of_string "abc"))
  /\ Utf8.decode (list_byte_of_string "abc") = Some (py "abc")
  /\ exists w' data',
       save_file Posix 1 picks_note (open_file id picks_note abc_on_disk)
       = Some w'
       /\ files w' !! askopenfilename picks_note = Some (File true true data')
       /\ Utf8.decode data'
          = Some (translate_newlines (os_linesep Posix)
                    (universal_newlines (py "abc") ++ [LF]))
       /\ data' <> list_byte_of_string "abc".
Proof.
  assert (truthy (askopenfilename picks_note) = true) as H1
    by reflexivity.
  assert (files abc_on_disk !! askopenfilename picks_note
          = Some (File true true (list_byte_of_string "abc"))) as H2
    by (vm_compute; reflexivity).
  assert (Utf8.decode (list_byte_of_string "abc") = Some (py "abc")) as H3
    by reflexivity.
  split; [exact H1|]. split; [exact H2|]. split; [exact H3|].
  exact (open_then_save_alters_file Posix id 0 picks_note picks_note
           abc_on_disk _ _ H1 H2 H3).
Defined.

(** The same run, evaluated: ["abc"] comes back as ["abc\n"]. *)
Example open_then_save_abc :
  exists w',
    save_file Posix 1 picks_note (open_file id picks_note abc_on_disk)
    = Some w'
    /\ files w' !! note_md
       = Some (File true true (list_byte_of_string "abc" ++ [Byte.x0a])).
Proof. eexists. split; [reflexivity|]. vm_compute. reflexivity. Qed.

(** And on Windows ["abc\r\n"] comes back as ["abc\r\n\r\n"]. *)
Example open_then_save_crlf_windows :
  exists w',
    save_file Windows 1 picks_note
      (open_file id picks_note
         (started (one_file (list_byte_of_string "abc"
                             ++ [Byte.x0d; Byte.x0a]))))
    = Some w'
    /\ files w' !! note_md
       = Some (File true true
                 (list_byte_of_string "abc"
                  ++ [Byte.x0d; Byte.x0a; Byte.x0d; Byte.x0a])).
Proof. eexists. split; [reflexivity|]. vm_compute. reflexivity. Qed.

Lemma open_file_undecodable_empties_buffer_draft :
  truthy (askopenfilename picks_note) = true
  /\ files draft_and_bad_file !! askopenfilename picks_note
     = Some (File true true [Byte.xff])
  /\ Utf8.decode [Byte.xff] = None
  /\ truthy (chars (text_editor (self draft_and_bad_file))) = true
  /\ chars (text_editor (self draft_and_bad_file)) = py "draft"
  /\ chars (text_editor (self (open_file id picks_note draft_and_bad_file)))
     = []
  /\ chars (text_editor (self (open_file id picks_note draft_and_bad_file)))
     <> chars (text_editor (self draft_and_bad_file)).
Proof.
  assert (truthy (askopenfilename picks_note) = true) as H1 by reflexivity.
  assert (files draft_and_bad_file !! askopenfilename picks_note
          = Some (File true true [Byte.xff])) as H2
    by (vm_compute; reflexivity).
  assert (Utf8.decode [Byte.xff] = None) as H3 by reflexivity.
  assert (truthy (chars (text_editor (self draft_and_bad_file))) = true)
    as H4 by reflexivity.
  split; [exact H1|]. split; [exact H2|]. split; [exact H3|].
  split; [exact H4|]. split; [reflexivity|].
  pose proof (open_file_undecodable_empties_buffer id picks_note
                draft_and_bad_file true [Byte.xff] H1 H2 H3 H4)
    as (_ & _ & _ & H5 & H6).
  split; [exact H5 | exact H6].
Defined.

(** A missing file, by contrast, leaves the instance and the disk alone. *)
Example open_file_missing :
  self (open_file id picks_note draft) = self draft
  /\ files (open_file id picks_note draft) = files draft
  /\ shown (open_file id picks_note draft)
     = [AskOpenFilename;
        ShowError (py "错误") (py "文件读取失败: ") FileNotFoundError].
Proof.
  rewrite (open_file_unreadable id picks_note draft FileNotFoundError);
    [done | reflexivity | vm_compute; reflexivity].
Qed.

Lemma new_file_discard_stays_modified_draft :
  modified (text_editor (self draft)) = true
  /\ askyesnocancel says_no = Some false
  /\ exists w',
       new_file Posix 1 says_no draft = Some w'
       /\ chars (text_editor (self w')) = []
       /\ current_file (self w') = None
       /\ modified (text_editor (self w')) = true.
Proof.
  split; [reflexivity|]. split; [reflexivity|].
  exact (new_file_discard_stays_modified Posix 0 says_no draft
           eq_refl eq_refl).
Defined.

Lemma new_file_cancel_draft :
  modified (text_editor (self draft)) = true
  /\ askyesnocancel says_cancel = None
  /\ exists w',
       new_file Posix 1 says_cancel draft = Some w'
       /\ self w' = self draft
       /\ files w' = files draft
       /\ shown w'
          = shown draft
            ++ [AskYesNoCancel (py "保存提示") (py "是否保存当前修改？")].
Proof.
  split; [reflexivity|]. split; [reflexivity|].
  exact (new_file_cancel Posix 0 says_cancel draft eq_refl eq_refl).
Defined.



(** The same save, evaluated: the write goes through. *)
Example save_as_into_room :
  exists w',
    save_file Posix 2 saves_as_note (typed (py "draft") Runs.room_for_note)
    = Some w'
    /\ current_file (self w') = Some note_md
    /\ files w' !! note_md
       = Some (File true true (list_byte_of_string "draft" ++ [Byte.x0a]))
    /\ modified (text_editor (self w')) = false
    /\ shown w' = [AskSaveAsFilename].
Proof. eexists. split; [reflexivity|]. vm_compute. repeat split. Qed.

Lemma new_file_clears_after_failed_save_draft :
  modified (text_editor (self draft_near_dir)) = true
  /\ askyesnocancel saves_as_dir = Some true
  /\ write_raises Posix (save_target saves_as_dir draft_near_dir)
       draft_near_dir
  /\ exists w',
       new_file Posix 3 saves_as_dir draft_near_dir = Some w'
       /\ chars (text_editor (self w')) = []
       /\ current_file (self w') = None
       /\ forall p, files w' !! p = files draft_near_dir !! p
                    \/ exists r x, files w' !! p = Some (File r x []).
Proof.
  assert (write_raises Posix (save_target saves_as_dir draft_near_dir)
            draft_near_dir) as Hr.
  { left. exists IsADirectoryError. vm_compute. reflexivity. }
  split; [reflexivity|]. split; [reflexivity|]. split; [exact Hr|].
  exact (new_file_clears_after_failed_save Posix 0 saves_as_dir
           draft_near_dir eq_refl eq_refl (or_intror Hr)).
Defined.

Lemma preview_changes_only_on_key_release_open :
  MenuOpen <> KeyRelease
  /\ handle Posix id paragraph 3 MenuOpen picks_note abc_on_disk
     = Some (open_file id picks_note abc_on_disk)
  /\ preview (self (open_file id picks_note abc_on_disk))
     = preview (self abc_on_disk).
Proof.
  assert (MenuOpen <> KeyRelease) as H1 by discriminate.
  split; [exact H1|]. split; [reflexivity|].
  exact (preview_changes_only_on_key_release Posix id paragraph 3 MenuOpen
           picks_note abc_on_disk _ H1 eq_refl).
Defined.

(** After the file is opened, the buffer holds its text while the preview
    still holds the greeting; the next key release brings it up to date. *)
Example preview_stale_after_open :
  chars (text_editor (self (open_file id picks_note abc_on_disk))) = py "abc"
  /\ preview (self (open_file id picks_note abc_on_disk))
     = py "<h3>开始编辑...</h3>"
  /\ preview (self (update_preview paragraph
                       (open_file id picks_note abc_on_disk)))
     = py "<p>abc" ++ [LF] ++ py "</p>".
Proof. vm_compute. done. Qed.

(** * More of the handlers *)

Section Extras.

Context (os : platform) (basename : pystr -> pystr)
        (markdown : N -> pystr -> list pystr -> pystr * N).

Lemma update_preview_frame w :
  files (update_preview markdown w) = files w
  /\ shown (update_preview markdown w) = shown w
  /\ current_file (self (update_preview markdown w)) = current_file (self w)
  /\ text_editor (self (update_preview markdown w)) = text_editor (self w).
Proof. unfold update_preview. by destruct (markdown _ _ _). Qed.

Lemma universal_newlines_truthy s :
  truthy s = true -> truthy (universal_newlines s) = true.
Proof. destruct s as [|c r]; [done|]. cbn. by destruct (c =? CR). Qed.

Lemma translate_newlines_Forall_inv (P : codepoint -> Prop) linesep s :
  P LF -> Forall P (translate_newlines linesep s) -> Forall P s.
Proof.
  intros HLF. induction s as [|c r IH]; [done|].
  cbn [translate_newlines]. intros [Hc Hr]%Forall_app.
  constructor; [|by apply IH].
  destruct (N.eqb_spec c LF) as [->|]; [done|]. by apply Forall_cons in Hc as [? _].
Qed.

Lemma written_encodable s :
  is_Some (Utf8.encode s) ->
  is_Some (Utf8.encode (translate_newlines (os_linesep os) (s ++ [LF]))).
Proof.
  intros Hs%Utf8Facts.encode_is_Some.
  apply Utf8Facts.encode_is_Some, translate_newlines_Forall.
  - destruct os; repeat constructor;
      auto using Utf8Facts.encode_cp_LF, Utf8Facts.encode_cp_CR.
  - apply Forall_app. split; [done|]. repeat constructor.
    apply Utf8Facts.encode_cp_LF.
Qed.

Lemma written_unencodable s :
  Utf8.encode s = None ->
  Utf8.encode (translate_newlines (os_linesep os) (s ++ [LF])) = None.
Proof.
  intros Hs. apply eq_None_not_Some. intros H%Utf8Facts.encode_is_Some.
  apply translate_newlines_Forall_inv in H; [|apply Utf8Facts.encode_cp_LF].
  apply Forall_app in H as [H _]. apply Utf8Facts.encode_is_Some in H.
  rewrite Hs in H. by destruct H.
Qed.

(** *** The depth of the calls *)

Lemma save_as_file_eq n u w :
  save_as_file os (S (S (S n))) u w = save_as_file os 3 u w.
Proof.
  cbn [save_as_file]. unfold save_as_file_body.
  destruct (truthy (asksaveasfilename u)); [|done].
  by rewrite (save_file_eq os n), (save_file_eq os 0).
Qed.

Lemma new_file_eq n u w :
  new_file os (S (S (S n))) u w = new_file os 3 u w.
Proof.
  cbn [new_file]. destruct (modified _); [|done].
  destruct (askyesnocancel u) as [[|]|]; try done.
  by rewrite (save_file_eq os n), (save_file_eq os 0).
Qed.

Lemma handle_eq n ev u w :
  handle os basename markdown (S (S (S n))) ev u w
  = handle os basename markdown 3 ev u w.
Proof.
  destruct ev; cbn [handle]; try done.
  - apply new_file_eq.
  - by rewrite (save_file_eq os (S n)), (save_file_eq os 1).
  - apply new_file_eq.
  - by rewrite (save_file_eq os (S n)), (save_file_eq os 1).
  - apply save_as_file_eq.
Qed.

(** X16: every handler returns once three nested calls are allowed, and a
    larger bound gives the same world: any sequence of events is handled
    to its end. *)
Theorem mainloop_returns n evs w :
  exists w',
    mainloop os basename markdown 3 evs w = Some w'
    /\ mainloop os basename markdown (S (S (S n))) evs w = Some w'.
Proof.
  revert w. induction evs as [|[ev u] evs IH]; intros w; cbn [mainloop].
  - by eexists.
  - rewrite (handle_eq n).
    destruct (handle_returns os basename markdown 0 ev u w) as [w1 ->].
    apply IH.
Qed.

Lemma save_file_chars n u w w' :
  save_file os n u w = Some w' ->
  chars (text_editor (self w')) = chars (text_editor (self w)).
Proof.
  revert w w'. induction n as [|n IH]; intros w w'; [done|].
  cbn [save_file]. unfold save_as_file_body.
  assert ((if truthy (asksaveasfilename u)
           then save_file os n u
                  (with_self (set_current_file (Some (asksaveasfilename u)))
                     (show AskSaveAsFilename w))
           else Some (show AskSaveAsFilename w)) = Some w' ->
          chars (text_editor (self w')) = chars (text_editor (self w)))
    as Has.
  { destruct (truthy (asksaveasfilename u)).
    - intros H%IH. exact H.
    - by intros [= <-]. }
  destruct (current_file (self w)) as [path|]; [|done].
  destruct (truthy path); [|done].
  intros [= <-]. apply save_file_try_frame.
Qed.

Lemma open_file_read_shown u w wr data s :
  truthy (askopenfilename u) = true ->
  files w !! askopenfilename u = Some (File true wr data) ->
  Utf8.decode data = Some s ->
  shown (open_file basename u w) = shown w ++ [AskOpenFilename].
Proof.
  intros Hp Hl Hd. unfold open_file, open_r, f_read. rewrite Hp. cbn.
  by rewrite Hl, Hd.
Qed.

(** *** [save_file] *)

(** X2: The path is set and names a writable file, or a name not taken yet
    in a directory that lets files be created: the save goes through. *)
Theorem save_file_writes n u w path bs :
  current_file (self w) = Some path ->
  truthy path = true ->
  files w !! path = Some (Vacant true)
  \/ (exists r data, files w !! path = Some (File r true data)) ->
  Utf8.encode (chars (text_editor (self w))) = Some bs ->
  exists w' data',
    save_file os (S n) u w = Some w'
    /\ files w'
       = <[path := File match files w !! path with
                        | Some (File r _ _) => r
                        | _ => true
                        end true data']> (files w)
    /\ Utf8.decode data'
       = Some (translate_newlines (os_linesep os)
                 (chars (text_editor (self w)) ++ [LF]))
    /\ self w'
       = set_status (py "已保存到: " ++ path)
           (on_text_editor (text_set_modified false) (self w))
    /\ shown w' = shown w.
Proof.
  intros Hc Hp Hl He. rewrite (save_file_set os n u w path Hc Hp).
  destruct (written_encodable (chars (text_editor (self w))))
    as [data' Hd]; [by eexists|].
  exists (save_file_try os path w), data'.
  split; [done|].
  apply Utf8Facts.decode_encode in Hd as Hdec.
  unfold save_file_try, open_w, f_write, text_get_all.
  destruct Hl as [Hl|(r & data & Hl)]; rewrite Hl; cbn; rewrite Hd; cbn;
    rewrite lookup_insert_eq, insert_insert_eq; done.
Qed.

(** X3: The path names a directory or a file that is not writable: [open]
    raises, the error is shown and nothing else changes. *)
Theorem save_file_unwritable n u w path :
  current_file (self w) = Some path ->
  truthy path = true ->
  files w !! path = Some Directory
  \/ (exists r data, files w !! path = Some (File r false data)) ->
  exists e,
    save_file os (S n) u w
    = Some (show (ShowError (py "错误") (py "保存失败: ") e) w).
Proof.
  intros Hc Hp Hl. rewrite (save_file_set os n u w path Hc Hp).
  unfold save_file_try, open_w.
  destruct Hl as [Hl|(r & data & Hl)]; rewrite Hl; by eexists.
Qed.

(** X4: The buffer holds a code point that UTF-8 cannot encode: [f.write]
    raises after [open] has truncated the file, whose old content is gone. *)
Theorem save_file_unencodable_truncates n u w path r data :
  current_file (self w) = Some path ->
  truthy path = true ->
  files w !! path = Some (File r true data) ->
  Utf8.encode (chars (text_editor (self w))) = None ->
  save_file os (S n) u w
  = Some (show (ShowError (py "错误") (py "保存失败: ") UnicodeEncodeError)
            (with_files (<[path := File r true []]> (files w)) w)).
Proof.
  intros Hc Hp Hl He. rewrite (save_file_set os n u w path Hc Hp).
  unfold save_file_try, open_w, f_write, text_get_all. rewrite Hl. cbn.
  by rewrite (written_unencodable _ He).
Qed.

(** X7: A save-as under a name that cannot be written leaves that name in
    [current_file]: every later [save_file] goes for it again and fails
    again, without asking for a name. *)
Theorem save_as_file_unwritable_sticks n m u u' w :
  truthy (asksaveasfilename u) = true ->
  files w !! asksaveasfilename u = Some Directory
  \/ (exists r data,
        files w !! asksaveasfilename u = Some (File r false data)) ->
  exists e w1,
    save_as_file os (S (S n)) u w = Some w1
    /\ current_file (self w1) = Some (asksaveasfilename u)
    /\ files w1 = files w
    /\ save_file os (S m) u' w1
       = Some (show (ShowError (py "错误") (py "保存失败: ") e) w1).
Proof.
  intros Hp Hl. rewrite save_as_file_chosen by done.
  assert (exists e, open_w (asksaveasfilename u) (files w) = Raise e)
    as [e He].
  { unfold open_w. destruct Hl as [Hl|(r & data & Hl)]; rewrite Hl; eauto. }
  exists e. eexists. split; [done|].
  unfold save_file_try at 1 2 3. cbn. rewrite He. cbn.
  split; [done|]. split; [done|].
  unfold save_file_try. cbn. rewrite Hp.
  unfold save_file_try. cbn. by rewrite He.
Qed.



(** *** [open_file] *)

(** X11: The file is read: its text takes the place of the buffer, whatever
    the buffer held, and path, title and status bar follow.  The disk is
    not touched and no error is shown.  The modified flag is raised as
    soon as the old buffer or the file holds a character. *)
Theorem open_file_replaces_buffer u w wr data s :
  truthy (askopenfilename u) = true ->
  files w !! askopenfilename u = Some (File true wr data) ->
  Utf8.decode data = Some s ->
  self (open_file basename u w)
  = {| current_file := Some (askopenfilename u);
       text_editor :=
         {| chars := universal_newlines s;
            modified := modified (text_editor (self w))
                        || truthy (chars (text_editor (self w)))
                        || truthy s |};
       preview := preview (self w);
       status_var := py "已打开: " ++ askopenfilename u;
       title := basename (askopenfilename u)
                ++ py " - Simineq Markdown Editor" |}
  /\ files (open_file basename u w) = files w
  /\ shown (open_file basename u w) = shown w ++ [AskOpenFilename].
Proof.
  intros Hp Hl Hd. unfold open_file, open_r, f_read. rewrite Hp. cbn.
  rewrite Hl, Hd. cbn. repeat split. do 2 f_equal.
  destruct s as [|c r]; [done|]. cbn. by destruct (c =? CR).
Qed.

(** X12: The buffer holds no carriage return after a file is read, whatever
    line endings the file has. *)
Theorem open_file_no_carriage_return u w wr data s :
  truthy (askopenfilename u) = true ->
  files w !! askopenfilename u = Some (File true wr data) ->
  Utf8.decode data = Some s ->
  Forall (fun c => c <> CR) (chars (text_editor (self (open_file basename u w)))).
Proof.
  intros Hp Hl Hd.
  destruct (open_file_read basename u w wr data s Hp Hl Hd) as (-> & _).
  apply universal_newlines_no_CR.
Qed.


(** *** [save_file] and then [open_file] *)

(** X1: A document saved and opened again comes back with one more newline
    at its end. *)
Theorem save_then_open_appends_newline n u u' w path :
  current_file (self w) = Some path ->
  truthy path = true ->
  files w !! path = Some (Vacant true)
  \/ (exists data, files w !! path = Some (File true true data)) ->
  is_Some (Utf8.encode (chars (text_editor (self w)))) ->
  Forall (fun c => c <> CR) (chars (text_editor (self w))) ->
  askopenfilename u' = path ->
  exists w1,
    save_file os (S n) u w = Some w1
    /\ chars (text_editor (self (open_file basename u' w1)))
       = chars (text_editor (self w)) ++ [LF]
    /\ shown (open_file basename u' w1) = shown w ++ [AskOpenFilename].
Proof.
  intros Hc Hp Hl [bs He] Hcr <-.
  rewrite (save_file_set os n u w _ Hc Hp). eexists. split; [done|].
  destruct (written_encodable (chars (text_editor (self w))))
    as [data' Hd]; [by eexists|].
  apply Utf8Facts.decode_encode in Hd as Hdec.
  assert (exists d, open_w (askopenfilename u') (files w) = Ok d) as [d Ho].
  { unfold open_w. destruct Hl as [Hl|(data & Hl)]; rewrite Hl; eauto. }
  destruct (save_file_try_written os _ w d data' Ho Hd) as (Hw & _ & _ & Hsh).
  assert (files (save_file_try os (askopenfilename u') w) !! askopenfilename u'
          = Some (File true true data')) as Hl1.
  { rewrite Hw. by destruct Hl as [Hl|(data & Hl)]; rewrite Hl. }
  destruct (open_file_read basename u' _ true data' _ Hp Hl1 Hdec)
    as (Hch & _).
  rewrite Hch, (open_file_read_shown u' _ true data' _ Hp Hl1 Hdec), Hsh.
  split; [|done].
  apply universal_translate, Forall_app. split; [done|].
  by repeat constructor.
Qed.

(** *** [new_file] *)

(** X9: Once [new_file] has emptied a buffer that held something, the
    modified flag is raised, whatever the answer to the prompt was and
    however the save went. *)
Theorem new_file_raises_modified n u w w' :
  truthy (chars (text_editor (self w))) = true ->
  modified (text_editor (self w)) = false \/ askyesnocancel u <> None ->
  new_file os n u w = Some w' ->
  chars (text_editor (self w')) = []
  /\ modified (text_editor (self w')) = true.
Proof.
  intros Hb Hgo. destruct n as [|n]; [done|]. cbn [new_file].
  destruct (modified (text_editor (self w))) eqn:Hm.
  - destruct Hgo as [|Hgo]; [done|].
    destruct (askyesnocancel u) as [[|]|]; [| |done].
    + destruct (save_file os n u _) as [w1|] eqn:Hs; [|done].
      intros [= <-]. apply save_file_chars in Hs as Hch.
      cbn in *. rewrite Hch, Hb. by rewrite orb_true_r.
    + intros [= <-]. cbn. by rewrite Hm.
  - intros [= <-]. cbn. by rewrite Hb, orb_true_r.
Qed.

(** X10: Answering yes saves the document before it is dropped: when the
    target can be written, the text is in the file afterwards and the
    buffer is empty. *)
Theorem new_file_saves_first n u w :
  modified (text_editor (self w)) = true ->
  askyesnocancel u = Some true ->
  truthy (save_target u w) = true ->
  files w !! save_target u w = Some (Vacant true)
  \/ (exists r data, files w !! save_target u w = Some (File r true data)) ->
  is_Some (Utf8.encode (chars (text_editor (self w)))) ->
  exists w' r data',
    new_file os (S (S (S n))) u w = Some w'
    /\ files w' !! save_target u w = Some (File r true data')
    /\ Utf8.decode data'
       = Some (translate_newlines (os_linesep os)
                 (chars (text_editor (self w)) ++ [LF]))
    /\ chars (text_editor (self w')) = []
    /\ current_file (self w') = None.
Proof.
  intros Hm Hy Ht Hl [bs He]. cbn [new_file]. rewrite Hm, Hy.
  set (w0 := show (AskYesNoCancel (py "保存提示") (py "是否保存当前修改？")) w).
  rewrite save_file_eq.
  change (save_target u w0) with (save_target u w).
  change (current_file (self w0)) with (current_file (self w)).
  rewrite Ht.
  destruct (written_encodable (chars (text_editor (self w))))
    as [data' Hd]; [by eexists|].
  apply Utf8Facts.decode_encode in Hd as Hdec.
  assert (exists d, open_w (save_target u w) (files w) = Ok d) as [d Ho].
  { unfold open_w. destruct Hl as [Hl|(r & data & Hl)]; rewrite Hl; eauto. }
  eexists _, _, data'. split; [done|].
  destruct (truthy_opt (current_file (self w))).
  - destruct (save_file_try_written os (save_target u w) w0 d data' Ho Hd)
      as (Hw & _).
    rewrite (proj1 (proj2 (proj2 (proj2 (proj2 (new_file_clear_spec _)))))).
    split; [exact Hw|]. done.
  - destruct (save_file_try_written os (save_target u w)
                (with_self (set_current_file (Some (save_target u w)))
                   (show AskSaveAsFilename w0)) d data' Ho Hd)
      as (Hw & _).
    rewrite (proj1 (proj2 (proj2 (proj2 (proj2 (new_file_clear_spec _)))))).
    split; [exact Hw|]. done.
Qed.

(** *** The disk *)

Lemma keeps_refl d : keeps d d.
Proof.
  intros p. destruct (d !! p) as [[r [|] data| |[|]]|]; eauto.
Qed.

Lemma keeps_trans d1 d2 d3 : keeps d1 d2 -> keeps d2 d3 -> keeps d1 d3.
Proof.
  intros H12 H23 p. specialize (H12 p). specialize (H23 p).
  destruct (d1 !! p) as [[r [|] data| |[|]]|]; [| | |done| |done].
  - destruct H12 as [data' H12]. rewrite H12 in H23. exact H23.
  - rewrite H12 in H23. exact H23.
  - rewrite H12 in H23. exact H23.
  - rewrite H12 in H23. exact H23.
Qed.

Lemma save_file_try_keeps path w :
  keeps (files w) (files (save_file_try os path w)).
Proof.
  intros p. unfold save_file_try, open_w, f_write.
  destruct (decide (p = path)) as [->|Hne].
  - destruct (files w !! path) as [[r [|] data| |[|]]|] eqn:Hl; cbn;
      rewrite ?Hl; try done.
    destruct (Utf8.encode _); cbn; rewrite ?lookup_insert_eq; cbn;
      rewrite ?lookup_insert_eq; eauto.
  - destruct (save_file_try_frame os path w) as (_ & _ & _ & _ & Hf).
    unfold save_file_try, open_w, f_write in Hf. rewrite (Hf p Hne).
    apply keeps_refl.
Qed.

Lemma save_file_keeps n u w w' :
  save_file os n u w = Some w' -> keeps (files w) (files w').
Proof.
  revert w w'. induction n as [|n IH]; intros w w'; [done|].
  cbn [save_file]. unfold save_as_file_body.
  assert ((if truthy (asksaveasfilename u)
           then save_file os n u
                  (with_self (set_current_file (Some (asksaveasfilename u)))
                     (show AskSaveAsFilename w))
           else Some (show AskSaveAsFilename w)) = Some w' ->
          keeps (files w) (files w')) as Has.
  { destruct (truthy (asksaveasfilename u)).
    - intros H%IH. exact H.
    - intros [= <-]. apply keeps_refl. }
  destruct (current_file (self w)) as [path|]; [|done].
  destruct (truthy path); [|done].
  intros [= <-]. apply save_file_try_keeps.
Qed.

Lemma handle_keeps n ev u w w' :
  handle os basename markdown n ev u w = Some w' ->
  keeps (files w) (files w').
Proof.
  destruct ev; cbn [handle].
  - intros [= <-]. rewrite (proj1 (update_preview_frame w)).
    apply keeps_refl.
  - destruct n as [|n]; [done|]. cbn [new_file].
    destruct (modified _); [|intros [= <-]; apply keeps_refl].
    destruct (askyesnocancel u) as [[|]|];
      try (intros [= <-]; apply keeps_refl).
    destruct (save_file os n u _) as [w1|] eqn:Hs; [|done].
    intros [= <-]. apply save_file_keeps in Hs. exact Hs.
  - apply save_file_keeps.
  - destruct n as [|n]; [done|]. cbn [new_file].
    destruct (modified _); [|intros [= <-]; apply keeps_refl].
    destruct (askyesnocancel u) as [[|]|];
      try (intros [= <-]; apply keeps_refl).
    destruct (save_file os n u _) as [w1|] eqn:Hs; [|done].
    intros [= <-]. apply save_file_keeps in Hs. exact Hs.
  - intros [= <-]. unfold open_file. destruct (truthy _); [|apply keeps_refl].
    cbn. destruct (open_r _ _) as [f|e]; [|apply keeps_refl]. cbn.
    destruct (f_read f); apply keeps_refl.
  - apply save_file_keeps.
  - destruct n as [|n]; [done|]. cbn [save_as_file]. unfold save_as_file_body.
    destruct (truthy _).
    + intros H%save_file_keeps. exact H.
    + intros [= <-]. apply keeps_refl.
  - intros [= <-]. apply keeps_refl.
Qed.

(** X14: Over any run of the application, nothing is ever removed from the
    disk: every path is still there, directories are directories, files
    have their permission bits, and a file that is not writable has its
    content. *)
Theorem mainloop_keeps_disk n evs w w' :
  mainloop os basename markdown n evs w = Some w' ->
  keeps (files w) (files w').
Proof.
  revert w. induction evs as [|[ev u] evs IH]; intros w; cbn [mainloop].
  - intros [= <-]. apply keeps_refl.
  - destruct (handle os basename markdown n ev u w) as [w1|] eqn:Hh; [|done].
    intros H%IH. apply handle_keeps in Hh. by eapply keeps_trans.
Qed.

(** X8: The disk changes in a save only: in [save_file] and [save_as_file],
    and in [new_file] when the buffer is modified and the user answers
    yes.  Every other handling leaves it as it is. *)
Theorem disk_written_by_save_only n ev u w w' :
  ev = KeyRelease \/ ev = MenuOpen \/ ev = MenuAbout
  \/ ((ev = Control_n \/ ev = MenuNew)
      /\ (modified (text_editor (self w)) = false
          \/ askyesnocancel u <> Some true)) ->
  handle os basename markdown n ev u w = Some w' ->
  files w' = files w.
Proof.
  assert (modified (text_editor (self w)) = false
          \/ askyesnocancel u <> Some true ->
          new_file os n u w = Some w' -> files w' = files w) as Hnew.
  { intros Hno. destruct n as [|n]; [done|]. cbn [new_file].
    destruct (modified _); [|by intros [= <-]].
    destruct Hno as [|Hno]; [done|].
    destruct (askyesnocancel u) as [[|]|]; [done| |]; by intros [= <-]. }
  intros [->|[->|[->|[[->| ->] Hno]]]]; cbn [handle]; auto.
  - intros [= <-]. apply update_preview_frame.
  - intros [= <-]. unfold open_file. destruct (truthy _); [|done]. cbn.
    destruct (open_r _ _) as [f|e]; [|done]. cbn. by destruct (f_read f).
  - by intros [= <-].
Qed.

(** *** The path *)

Lemma save_file_path n u w w' :
  path_set_or_none w -> save_file os n u w = Some w' -> path_set_or_none w'.
Proof.
  unfold path_set_or_none.
  revert w w'. induction n as [|n IH]; intros w w' Hw; [done|].
  cbn [save_file]. unfold save_as_file_body.
  assert ((if truthy (asksaveasfilename u)
           then save_file os n u
                  (with_self (set_current_file (Some (asksaveasfilename u)))
                     (show AskSaveAsFilename w))
           else Some (show AskSaveAsFilename w)) = Some w' ->
          current_file (self w') <> Some []) as Has.
  { destruct (truthy (asksaveasfilename u)) eqn:Hp.
    - apply IH. cbn. intros [= H]. by rewrite H in Hp.
    - by intros [= <-]. }
  destruct (current_file (self w)) as [path|] eqn:Hc; [|done].
  destruct (truthy path); [|done].
  intros [= <-]. destruct (save_file_try_frame os path w) as (-> & _).
  by rewrite Hc.
Qed.

Lemma handle_path n ev u w w' :
  path_set_or_none w ->
  handle os basename markdown n ev u w = Some w' ->
  path_set_or_none w'.
Proof.
  intros Hw.
  assert (new_file os n u w = Some w' -> path_set_or_none w') as Hnew.
  { destruct n as [|n]; [done|]. cbn [new_file].
    destruct (modified _); [|by intros [= <-]].
    destruct (askyesnocancel u) as [[|]|]; try by intros [= <-].
    destruct (save_file os n u _) as [w1|]; [|done]. by intros [= <-]. }
  destruct ev; cbn [handle]; auto.
  - intros [= <-]. unfold path_set_or_none in *.
    by rewrite (proj1 (proj2 (proj2 (update_preview_frame w)))).
  - by apply save_file_path.
  - intros [= <-]. unfold open_file, path_set_or_none in *.
    destruct (truthy (askopenfilename u)) eqn:Hp; [|done]. cbn.
    destruct (open_r _ _) as [f|e]; [|done]. cbn.
    destruct (f_read f); [|done]. cbn. intros [= H]. by rewrite H in Hp.
  - by apply save_file_path.
  - destruct n as [|n]; [done|]. cbn [save_as_file]. unfold save_as_file_body.
    destruct (truthy (asksaveasfilename u)) eqn:Hp.
    + apply save_file_path. unfold path_set_or_none. cbn.
      intros [= H]. by rewrite H in Hp.
    + by intros [= <-].
  - by intros [= <-].
Qed.

(** X15: Over any run from the start, [self.current_file] is [None] or a
    non-empty string: the empty answer of a dismissed dialog never gets
    there. *)
Theorem mainloop_path_set_or_none n evs d r w' :
  mainloop os basename markdown n evs
    {| self := init; files := d; shown := []; random_state := r |}
  = Some w' ->
  path_set_or_none w'.
Proof.
  assert (forall w, path_set_or_none w ->
            mainloop os basename markdown n evs w = Some w' ->
            path_set_or_none w') as Hrun.
  { induction evs as [|[ev u] evs IH]; intros w Hw; cbn [mainloop].
    - by intros [= <-].
    - destruct (handle os basename markdown n ev u w) as [w1|] eqn:Hh;
        [|done].
      apply IH. by eapply handle_path. }
  apply Hrun. done.
Qed.

End Extras.

(** * The same on concrete runs *)

Import Runs.

Lemma save_then_open_appends_newline_draft :
  current_file (self (named_draft room_for_note)) = Some note_md
  /\ truthy note_md = true
  /\ files (named_draft room_for_note) !! note_md = Some (Vacant true)
  /\ is_Some (Utf8.encode (chars (text_editor (self (named_draft room_for_note)))))
  /\ Forall (fun c => c <> CR) (chars (text_editor (self (named_draft room_for_note))))
  /\ askopenfilename picks_note = note_md
  /\ exists w1,
       save_file Windows 1 says_cancel (named_draft room_for_note) = Some w1
       /\ chars (text_editor (self (open_file id picks_note w1)))
          = py "draft" ++ [LF]
       /\ shown (open_file id picks_note w1)
          = shown (named_draft room_for_note) ++ [AskOpenFilename].
Proof.
  assert (is_Some (Utf8.encode (chars (text_editor (self (named_draft room_for_note))))))
    as H4 by (eexists; reflexivity).
  assert (Forall (fun c => c <> CR)
            (chars (text_editor (self (named_draft room_for_note))))) as H5
    by (repeat constructor; discriminate).
  split; [reflexivity|]. split; [reflexivity|]. split; [reflexivity|].
  split; [exact H4|]. split; [exact H5|]. split; [reflexivity|].
  exact (save_then_open_appends_newline Windows id 0 says_cancel picks_note
           (named_draft room_for_note) note_md eq_refl eq_refl (or_introl eq_refl)
           H4 H5 eq_refl).
Defined.

Lemma save_file_writes_draft :
  current_file (self (named_draft (one_file (list_byte_of_string "abc"))))
  = Some note_md
  /\ truthy note_md = true
  /\ files (named_draft (one_file (list_byte_of_string "abc"))) !! note_md
     = Some (File true true (list_byte_of_string "abc"))
  /\ Utf8.encode (py "draft") = Some (list_byte_of_string "draft")
  /\ exists w' data',
       save_file Windows 1 says_cancel
         (named_draft (one_file (list_byte_of_string "abc"))) = Some w'
       /\ files w' = <[note_md := File true true data']>
                       (one_file (list_byte_of_string "abc"))
       /\ Utf8.decode data' = Some (py "draft" ++ [CR; LF])
       /\ self w'
          = set_status (py "已保存到: " ++ note_md)
              (on_text_editor (text_set_modified false)
                 (self (named_draft (one_file (list_byte_of_string "abc")))))
       /\ shown w' = [].
Proof.
  split; [reflexivity|]. split; [reflexivity|]. split; [reflexivity|].
  split; [reflexivity|].
  exact (save_file_writes Windows 0 says_cancel
           (named_draft (one_file (list_byte_of_string "abc"))) note_md
           (list_byte_of_string "draft") eq_refl eq_refl
           (or_intror (ex_intro _ true (ex_intro _ _ eq_refl))) eq_refl).
Defined.

Lemma save_file_unwritable_read_only :
  current_file (self (named_draft read_only)) = Some note_md
  /\ truthy note_md = true
  /\ files (named_draft read_only) !! note_md
     = Some (File true false (list_byte_of_string "abc"))
  /\ exists e,
       save_file Posix 1 says_cancel (named_draft read_only)
       = Some (show (ShowError (py "错误") (py "保存失败: ") e)
                 (named_draft read_only)).
Proof.
  split; [reflexivity|]. split; [reflexivity|]. split; [reflexivity|].
  exact (save_file_unwritable Posix 0 says_cancel (named_draft read_only)
           note_md eq_refl eq_refl
           (or_intror (ex_intro _ true (ex_intro _ _ eq_refl)))).
Defined.

Lemma save_file_unencodable_truncates_surrogate :
  current_file (self (named_surrogate (one_file (list_byte_of_string "abc"))))
  = Some note_md
  /\ truthy note_md = true
  /\ files (named_surrogate (one_file (list_byte_of_string "abc"))) !! note_md
     = Some (File true true (list_byte_of_string "abc"))
  /\ Utf8.encode [0xD800] = None
  /\ save_file Posix 1 says_cancel
       (named_surrogate (one_file (list_byte_of_string "abc")))
     = Some (show (ShowError (py "错误") (py "保存失败: ") UnicodeEncodeError)
               (with_files
                  (<[note_md := File true true []]>
                     (one_file (list_byte_of_string "abc")))
                  (named_surrogate (one_file (list_byte_of_string "abc"))))).
Proof.
  split; [reflexivity|]. split; [reflexivity|]. split; [reflexivity|].
  split; [reflexivity|].
  exact (save_file_unencodable_truncates Posix 0 says_cancel
           (named_surrogate (one_file (list_byte_of_string "abc")))
           note_md true (list_byte_of_string "abc")
           eq_refl eq_refl eq_refl eq_refl).
Defined.

Lemma save_as_file_unwritable_sticks_dir :
  truthy (asksaveasfilename saves_as_dir) = true
  /\ files draft_near_dir !! asksaveasfilename saves_as_dir = Some Directory
  /\ exists e w1,
       save_as_file Posix 2 saves_as_dir draft_near_dir = Some w1
       /\ current_file (self w1) = Some docs_dir
       /\ files w1 = files draft_near_dir
       /\ save_file Posix 1 saves_as_note w1
          = Some (show (ShowError (py "错误") (py "保存失败: ") e) w1).
Proof.
  split; [reflexivity|]. split; [reflexivity|].
  exact (save_as_file_unwritable_sticks Posix 0 0 saves_as_dir saves_as_note
           draft_near_dir eq_refl (or_introl eq_refl)).
Defined.



Lemma disk_written_by_save_only_new :
  (MenuNew = Control_n \/ MenuNew = MenuNew)
  /\ askyesnocancel says_no <> Some true
  /\ handle Posix id paragraph 1 MenuNew says_no (named_draft read_only)
     = Some (new_file_clear
               (show (AskYesNoCancel (py "保存提示") (py "是否保存当前修改？"))
                  (named_draft read_only)))
  /\ files (new_file_clear
              (show (AskYesNoCancel (py "保存提示") (py "是否保存当前修改？"))
                 (named_draft read_only)))
     = files (named_draft read_only).
Proof.
  assert (askyesnocancel says_no <> Some true) as H2 by discriminate.
  assert (handle Posix id paragraph 1 MenuNew says_no (named_draft read_only)
          = Some (new_file_clear
                    (show (AskYesNoCancel (py "保存提示")
                             (py "是否保存当前修改？"))
                       (named_draft read_only)))) as H3 by reflexivity.
  split; [by right|]. split; [exact H2|]. split; [exact H3|].
  exact (disk_written_by_save_only Posix id paragraph 1 MenuNew says_no
           (named_draft read_only) _
           (or_intror (or_intror (or_intror
              (conj (or_intror eq_refl) (or_intror H2))))) H3).
Defined.

Lemma new_file_raises_modified_after_save :
  truthy (chars (text_editor (self (named_draft room_for_note)))) = true
  /\ askyesnocancel says_yes_note <> None
  /\ exists w',
       new_file Posix 3 says_yes_note (named_draft room_for_note) = Some w'
       /\ files w' !! note_md
          = Some (File true true (list_byte_of_string "draft" ++ [Byte.x0a]))
       /\ chars (text_editor (self w')) = []
       /\ modified (text_editor (self w')) = true.
Proof.
  assert (askyesnocancel says_yes_note <> None) as H2 by discriminate.
  split; [reflexivity|]. split; [exact H2|].
  destruct (new_file Posix 3 says_yes_note (named_draft room_for_note)) as [w'|] eqn:H;
    [|vm_compute in H; discriminate].
  exists w'. split; [reflexivity|]. split.
  - vm_compute in H. injection H as <-. vm_compute. reflexivity.
  - exact (new_file_raises_modified Posix 3 says_yes_note (named_draft room_for_note) w'
             eq_refl (or_intror H2) H).
Defined.

Lemma new_file_saves_first_draft :
  modified (text_editor (self (named_draft room_for_note))) = true
  /\ askyesnocancel says_yes_note = Some true
  /\ save_target says_yes_note (named_draft room_for_note) = note_md
  /\ files (named_draft room_for_note) !! note_md = Some (Vacant true)
  /\ is_Some (Utf8.encode (chars (text_editor (self (named_draft room_for_note)))))
  /\ exists w' r data',
       new_file Windows 3 says_yes_note (named_draft room_for_note) = Some w'
       /\ files w' !! note_md = Some (File r true data')
       /\ Utf8.decode data' = Some (py "draft" ++ [CR; LF])
       /\ chars (text_editor (self w')) = []
       /\ current_file (self w') = None.
Proof.
  assert (is_Some (Utf8.encode (chars (text_editor (self (named_draft room_for_note))))))
    as H5 by (eexists; reflexivity).
  split; [reflexivity|]. split; [reflexivity|]. split; [reflexivity|].
  split; [reflexivity|]. split; [exact H5|].
  exact (new_file_saves_first Windows 0 says_yes_note (named_draft room_for_note)
           eq_refl eq_refl eq_refl (or_introl eq_refl) H5).
Defined.

Lemma open_file_replaces_buffer_crlf :
  truthy (askopenfilename picks_note) = true
  /\ files (typed (py "draft") crlf_file) !! askopenfilename picks_note
     = Some (File true true
               (list_byte_of_string "a" ++ [Byte.x0d; Byte.x0a]
                ++ list_byte_of_string "b" ++ [Byte.x0d; Byte.x0a]))
  /\ Utf8.decode (list_byte_of_string "a" ++ [Byte.x0d; Byte.x0a]
                  ++ list_byte_of_string "b" ++ [Byte.x0d; Byte.x0a])
     = Some (py "a" ++ [CR; LF] ++ py "b" ++ [CR; LF])
  /\ chars (text_editor
              (self (open_file id picks_note (typed (py "draft") crlf_file))))
     = py "a" ++ [LF] ++ py "b" ++ [LF]
  /\ modified (text_editor
                 (self (open_file id picks_note
                          (typed (py "draft") crlf_file)))) = true
  /\ files (open_file id picks_note (typed (py "draft") crlf_file))
     = crlf_file.
Proof.
  split; [reflexivity|]. split; [reflexivity|]. split; [reflexivity|].
  destruct (open_file_replaces_buffer id picks_note
              (typed (py "draft") crlf_file) true _ _
              eq_refl eq_refl eq_refl) as (Hs & Hf & _).
  rewrite Hs, Hf. repeat split.
Defined.

Lemma open_file_no_carriage_return_crlf :
  truthy (askopenfilename picks_note) = true
  /\ files (started crlf_file) !! askopenfilename picks_note
     = Some (File true true
               (list_byte_of_string "a" ++ [Byte.x0d; Byte.x0a]
                ++ list_byte_of_string "b" ++ [Byte.x0d; Byte.x0a]))
  /\ Utf8.decode (list_byte_of_string "a" ++ [Byte.x0d; Byte.x0a]
                  ++ list_byte_of_string "b" ++ [Byte.x0d; Byte.x0a])
     = Some (py "a" ++ [CR; LF] ++ py "b" ++ [CR; LF])
  /\ Forall (fun c => c <> CR)
       (chars (text_editor (self (open_file id picks_note
                                    (started crlf_file))))).
Proof.
  split; [reflexivity|]. split; [reflexivity|]. split; [reflexivity|].
  exact (open_file_no_carriage_return id picks_note (started crlf_file)
           true _ _ eq_refl eq_refl eq_refl).
Defined.


Lemma mainloop_keeps_disk_session :
  exists w',
    mainloop Posix id paragraph 3 session (typed (py "draft") dir_and_room)
    = Some w'
    /\ keeps dir_and_room (files w').
Proof.
  destruct (mainloop Posix id paragraph 3 session (typed (py "draft") dir_and_room))
    as [w'|] eqn:H; [|vm_compute in H; discriminate].
  exists w'. split; [reflexivity|].
  exact (mainloop_keeps_disk Posix id paragraph 3 session _ w' H).
Defined.

Lemma mainloop_path_set_or_none_session :
  exists w',
    mainloop Posix id paragraph 3 session (started dir_and_room) = Some w'
    /\ path_set_or_none w'.
Proof.
  destruct (mainloop Posix id paragraph 3 session (started dir_and_room))
    as [w'|] eqn:H; [|vm_compute in H; discriminate].
  exists w'. split; [reflexivity|].
  exact (mainloop_path_set_or_none Posix id paragraph 3 session dir_and_room 0
           w' H).
Defined.

(** The session, evaluated: the failed save under the name of the
    directory, the save as [note.md], the new document and the file opened
    again, which comes back with its newline. *)
Example session_run :
  exists w',
    mainloop Posix id paragraph 3 session (typed (py "draft") dir_and_room)
    = Some w'
    /\ files w' !! docs_dir = Some Directory
    /\ files w' !! note_md
       = Some (File true true (list_byte_of_string "draft" ++ [Byte.x0a]))
    /\ chars (text_editor (self w')) = py "draft" ++ [LF]
    /\ current_file (self w') = Some note_md
    /\ preview (self w') = py "<p>draft" ++ [LF] ++ py "</p>".
Proof. eexists. split; [vm_compute; reflexivity|]. vm_compute. repeat split. Qed.
